(** * Resumable backtest engine: ledger, orchestrator loop and throttle

    A shallow embedding of [trade_manager.py], of the day loop of
    [backtest_runner.py] and of the [smart_rate_limit] decorator of
    [tradingagents/dataflows/alpha_vantage_news.py].

    Numbers.  Cash, prices, amounts and clock readings are Python floats in
    the source; they are idealised here as exact rationals [Q], so that
    [/], [*], [+], [-] are the exact operations.  Share counts are Python
    integers and are modelled as [Z].

    Effects.  The spreadsheet files are a finite map from paths to file
    contents, the decision reports another one, and console output is a
    list of log lines.  A method that mutates [self] returns the new
    object; a method that can raise returns a [result] next to the state
    it leaves behind, because in Python the mutations done before the
    exception are kept. *)

From Stdlib Require Import ZArith QArith Qround Qabs Lia Lqa Ascii.
From stdpp Require Import gmap strings list fin_maps pretty.

Local Open Scope Z_scope.

(** ** Python numbers *)

(** [x < y] on floats. *)
Definition Qlt_bool (x y : Q) : bool := negb (Qle_bool y x).

(** [int(x)]: truncation towards zero. *)
Definition py_int (q : Q) : Z := Z.quot (Qnum q) (Zpos (Qden q)).

(** Nearest integer, ties to the even one. *)
Definition round_half_even (q : Q) : Z :=
  let f := Qfloor q in
  match Qcompare (q - inject_Z f) (1 # 2) with
  | Lt => f
  | Gt => f + 1
  | Eq => if Z.even f then f else f + 1
  end.

(** [round(x, 2)]. *)
Definition py_round2 (q : Q) : Q :=
  (inject_Z (round_half_even (q * 100)) / 100)%Q.

(** ** Exceptions, results, log lines *)

Inductive Exn :=
  | ZeroDivisionError
  | OSError
  | AttributeError.

Inductive result (A : Type) :=
  | Ok (a : A)
  | Raise (e : Exn).
Arguments Ok {A} a.
Arguments Raise {A} e.

(** ** trade_manager.py *)

(** One row of the ledger: the dict built at the end of [execute_trade],
    which is also one row of the spreadsheet. *)
Record TradeRecord := mkRecord {
  Date : string;
  Ticker : string;
  Signal : string;
  Action : string;
  Open_Price : Q;
  Shares_Delta : Z;
  Transaction_Amount : Q;
  Cash : Q;
  Shares : Z;
  Total_Value : Q;
  Cumulative_Return_Pct : Q
}.

(** What [pd.read_excel] finds at a path: a table with the columns
    [save_to_excel] writes, or something it cannot read. *)
Inductive XlsxFile :=
  | Sheet (rows : list TradeRecord)
  | Corrupt.

(** The [print] calls of the two modules. *)
Inductive LogLine :=
  | LedgerLoaded (ticker : string) (capital : Q) (shares : Z)
  | LedgerReadFailed
  | Banner
  | Downloading (ticker : string)
  | DownloadFailed
  | DaysToSimulate (ticker : string) (n : nat)
  | DayHeader (ticker analysis_date : string) (pos total : nat)
  | EndOfData
  | DataError
  | ReportFound (path : string)
  | SignalFromFile (signal : string)
  | ReportReadFailed
  | AIStart
  | AIDecision (signal : string)
  | AIFailed
  | LedgerUpdated (next_date action : string) (total_value : Z)
  | BookkeepingFailed (e : Exn).

Record TradeManager := mkTradeManager {
  ticker : string;
  capital : Q;
  shares : Z;
  initial_capital : Q;
  records : list TradeRecord;
  file_path : string
}.

(** [self.capital = c; self.shares = s] *)
Definition set_position (self : TradeManager) (c : Q) (s : Z) : TradeManager :=
  {| ticker := ticker self; capital := c; shares := s;
     initial_capital := initial_capital self; records := records self;
     file_path := file_path self |}.

(** [self.records = rs] *)
Definition set_records (self : TradeManager) (rs : list TradeRecord) : TradeManager :=
  {| ticker := ticker self; capital := capital self; shares := shares self;
     initial_capital := initial_capital self; records := rs;
     file_path := file_path self |}.

(** [load_state]: a failing [pd.read_excel] (missing or unreadable file) is
    caught and reported; an empty table changes nothing. *)
Definition load_state (self : TradeManager) (fs : gmap string XlsxFile)
  : TradeManager * list LogLine :=
  match fs !! file_path self with
  | Some (Sheet rows) =>
      match last rows with
      | Some last_row =>
          let self1 := set_position self (Cash last_row) (Shares last_row) in
          let self2 := set_records self1 rows in
          (self2, [LedgerLoaded (ticker self2) (capital self2) (shares self2)])
      | None => (self, [])
      end
  | Some Corrupt | None => (self, [LedgerReadFailed])
  end.

(** [TradeManager.__init__] *)
Definition TradeManager_init (fs : gmap string XlsxFile) (ticker : string)
    (initial_capital : Q) : TradeManager * list LogLine :=
  let self :=
    {| ticker := ticker; capital := initial_capital; shares := 0;
       initial_capital := initial_capital; records := [];
       file_path := "results/" +:+ ticker +:+ "_backtest_results.xlsx" |} in
  match fs !! file_path self with
  | Some _ => load_state self fs
  | None => (self, [])
  end.

(** [save_to_excel]: a full rewrite of the file from [self.records].
    Whether the operating system lets the write through is decided by
    [disk]; a refused write raises and leaves the file as it was. *)
Definition save_to_excel (disk : string -> list TradeRecord -> bool)
    (self : TradeManager) (fs : gmap string XlsxFile)
  : gmap string XlsxFile * result unit :=
  if disk (file_path self) (records self)
  then (<[file_path self := Sheet (records self)]> fs, Ok tt)
  else (fs, Raise OSError).

(** [execute_trade].  The three results are the object after the call, the
    files after the call, and the returned record or the exception. *)
Definition execute_trade (disk : string -> list TradeRecord -> bool)
    (self : TradeManager) (fs : gmap string XlsxFile)
    (date signal : string) (open_price : Q)
  : TradeManager * gmap string XlsxFile * result TradeRecord :=
  let branch : result (TradeManager * (string * Z * Q)) :=
    if String.eqb signal "BUY" && Qlt_bool 0 (capital self) then
      let available_cash := (capital self * 1)%Q in
      if Qeq_bool open_price 0 then Raise ZeroDivisionError
      else
        let buy_shares := py_int (available_cash / open_price) in
        if 0 <? buy_shares then
          let cost := (inject_Z buy_shares * open_price)%Q in
          Ok (set_position self (capital self - cost)%Q (shares self + buy_shares),
              ("BUY"%string, buy_shares, cost))
        else Ok (self, ("HOLD"%string, 0, 0%Q))
    else if String.eqb signal "SELL" && (0 <? shares self) then
      let revenue := (inject_Z (shares self) * open_price)%Q in
      Ok (set_position self (capital self + revenue)%Q 0,
          ("SELL"%string, - shares self, revenue))
    else Ok (self, ("HOLD"%string, 0, 0%Q)) in
  match branch with
  | Raise e => (self, fs, Raise e)
  | Ok (self1, (action, shares_delta, amount)) =>
      let total_value := (capital self1 + inject_Z (shares self1) * open_price)%Q in
      if Qeq_bool (initial_capital self1) 0 then (self1, fs, Raise ZeroDivisionError)
      else
        let total_return :=
          ((total_value - initial_capital self1) / initial_capital self1 * 100)%Q in
        let record :=
          {| Date := date; Ticker := ticker self1; Signal := signal;
             Action := action; Open_Price := open_price;
             Shares_Delta := shares_delta; Transaction_Amount := amount;
             Cash := capital self1; Shares := shares self1;
             Total_Value := total_value;
             Cumulative_Return_Pct := py_round2 total_return |} in
        let self2 := set_records self1 (records self1 ++ [record]) in
        match save_to_excel disk self2 fs with
        | (fs', Ok _) => (self2, fs', Ok record)
        | (fs', Raise e) => (self2, fs', Raise e)
        end
  end.

(** ** backtest_runner.py *)

Definition TICKERS : list string := ["AMZN"; "TSLA"].
Definition START_DATE : string := "2025-01-01".
Definition END_DATE : string := "2025-12-31".

(** One row of the price table: its index entry as ['%Y-%m-%d'] text and
    its closing price ([None] when the table has neither a ['Close'] nor a
    ['close'] column, in which case both lookups raise [KeyError]). *)
Record Bar := mkBar {
  bar_date : string;
  bar_close : option Q
}.

(** What is stored at a report path: a text from which
    [parse_signal_from_content] extracts a signal, or a file on which
    reading or parsing raises. *)
Inductive ReportFile :=
  | Decision (signal : string)
  | Unparsable.

(** The collaborators of the loop: the price download for the configured
    date range ([None] when it raises), the report files, the signal
    generator ([None] when it raises) and the disk. *)
Record Env := mkEnv {
  yf_download : string -> option (list Bar);
  reports : gmap string ReportFile;
  run_analysis_execution : string -> string -> option string;
  disk : string -> list TradeRecord -> bool
}.

(** The state the loop threads: the [trader] object, the spreadsheet
    files and the console. *)
Record Run := mkRun {
  trader : TradeManager;
  files : gmap string XlsxFile;
  log : list LogLine
}.

Definition say (st : Run) (ls : list LogLine) : Run :=
  mkRun (trader st) (files st) (log st ++ ls).

(** How one iteration of the day loop ends. *)
Inductive Flow :=
  | Continue
  | Break
  | Propagate (e : Exn).

(** [get_market_data]: a failed download is reported and gives an empty
    table. *)
Definition get_market_data (env : Env) (ticker : string)
  : list Bar * list LogLine :=
  match yf_download env ticker with
  | Some df => (df, [Downloading ticker])
  | None => ([], [Downloading ticker; DownloadFailed])
  end.

(** [market_data.index.get_loc] *)
Fixpoint get_loc (date : string) (bars : list Bar) : option nat :=
  match bars with
  | [] => None
  | b :: bs =>
      if String.eqb (bar_date b) date then Some 0%nat
      else S <$> get_loc date bs
  end.

Definition report_path_of (ticker analysis_date : string) : string :=
  "results/" +:+ ticker +:+ "/" +:+ analysis_date
    +:+ "/reports/final_trade_decision.md".

(** The body of [for idx, analysis_date in enumerate(target_days)].
    [report_path] is an [option] because the source overwrites it with
    [None]; calling [.exists()] on [None] raises [AttributeError], outside
    every [try]. *)
Definition loop_body (env : Env) (ticker : string) (market_data : list Bar)
    (total : nat) (st : Run) (idx : nat) (analysis_date : string)
  : Run * Flow :=
  let st := say st [DayHeader ticker analysis_date (S idx) total] in
  match get_loc analysis_date market_data with
  | None => (st, Continue)
  | Some current_loc =>
  let next_loc := S current_loc in
  match market_data !! next_loc with
  | None => (say st [EndOfData], Break)
  | Some bar =>
  let next_date_str := bar_date bar in
  match bar_close bar with
  | None => (say st [DataError], Continue)
  | Some next_open =>
  let signal := "HOLD" in
  let report_path := Some (report_path_of ticker analysis_date) in
  let '(st, signal, report_path) :=
    match reports env !! report_path_of ticker analysis_date with
    | Some file =>
        let st := say st [ReportFound (report_path_of ticker analysis_date)] in
        match file with
        | Decision s => (say st [SignalFromFile s], s, report_path)
        | Unparsable => (say st [ReportReadFailed], signal, None)
        end
    | None => (st, signal, report_path)
    end in
  match report_path with
  | None => (st, Propagate AttributeError)
  | Some p =>
  let '(st, signal) :=
    match reports env !! p with
    | None =>
        let st := say st [AIStart] in
        match run_analysis_execution env ticker analysis_date with
        | Some s => (say st [AIDecision s], s)
        | None => (say st [AIFailed], "HOLD")
        end
    | Some _ => (st, signal)
    end in
  match execute_trade (disk env) (trader st) (files st)
          next_date_str signal next_open with
  | (trader', files', Ok record) =>
      (mkRun trader' files'
         (log st ++ [LedgerUpdated next_date_str (Action record)
                       (py_int (Total_Value record))]),
       Continue)
  | (trader', files', Raise e) =>
      (mkRun trader' files' (log st ++ [BookkeepingFailed e]), Continue)
  end end end end end.

(** The day loop; [None] when it ends by exhaustion or by [break]. *)
Fixpoint run_days (env : Env) (ticker : string) (market_data : list Bar)
    (total : nat) (st : Run) (idx : nat) (days : list string)
  : Run * option Exn :=
  match days with
  | [] => (st, None)
  | analysis_date :: rest =>
      match loop_body env ticker market_data total st idx analysis_date with
      | (st', Continue) => run_days env ticker market_data total st' (S idx) rest
      | (st', Break) => (st', None)
      | (st', Propagate e) => (st', Some e)
      end
  end.

Definition target_days (market_data : list Bar) : list string :=
  List.filter (fun d => String.leb START_DATE d && String.leb d END_DATE)
    (bar_date <$> market_data).

(** The body of [for ticker in TICKERS], from given files and console. *)
Definition run_ticker (env : Env) (fs : gmap string XlsxFile)
    (out : list LogLine) (ticker : string) : Run * option Exn :=
  let '(trader, loaded) := TradeManager_init fs ticker 100000 in
  let '(market_data, fetched) := get_market_data env ticker in
  let st := mkRun trader fs (out ++ loaded ++ fetched) in
  match market_data with
  | [] => (st, None)
  | _ =>
      let days := target_days market_data in
      let st := say st [DaysToSimulate ticker (length days)] in
      run_days env ticker market_data (length days) st 0 days
  end.

(** [main], over a list of tickers. *)
Fixpoint run_tickers (env : Env) (fs : gmap string XlsxFile)
    (out : list LogLine) (tickers : list string)
  : gmap string XlsxFile * list LogLine * option Exn :=
  match tickers with
  | [] => (fs, out, None)
  | ticker :: rest =>
      match run_ticker env fs out ticker with
      | (st, None) => run_tickers env (files st) (log st) rest
      | (st, Some e) => (files st, log st, Some e)
      end
  end.

Definition main (env : Env) (fs : gmap string XlsxFile)
  : gmap string XlsxFile * list LogLine * option Exn :=
  run_tickers env fs [Banner] TICKERS.

(** The rows a ledger file holds, none when it is missing or unreadable. *)
Definition persisted_rows (fs : gmap string XlsxFile) (path : string)
  : list TradeRecord :=
  match fs !! path with
  | Some (Sheet rows) => rows
  | _ => []
  end.

(** The T+1 dates the day loop reaches over [days]: a day without index
    entry or without closing price is passed over, and the loop stops at
    the first day that has no following bar. *)
Fixpoint exec_dates (market_data : list Bar) (days : list string) : list string :=
  match days with
  | [] => []
  | d :: rest =>
      match get_loc d market_data with
      | None => exec_dates market_data rest
      | Some current_loc =>
          match market_data !! S current_loc with
          | None => []
          | Some bar =>
              match bar_close bar with
              | None => exec_dates market_data rest
              | Some _ => bar_date bar :: exec_dates market_data rest
              end
          end
      end
  end.

(** ** alpha_vantage_news.py: smart_rate_limit *)

(** The wall clock and the module-level [_last_request_time].  The lock
    makes the bodies of [wrapper] run one after the other, so a run of
    guarded calls is a sequence of bodies with idle time in between. *)
Record Throttle := mkThrottle {
  clock : Q;
  _last_request_time : Q
}.

(** What the environment contributes to one guarded call: the time that
    passes before [wrapper] reads the clock, by how much [time.sleep]
    oversleeps, and how long the wrapped function runs. *)
Record Call := mkCall {
  idle : Q;
  oversleep : Q;
  duration : Q
}.

Definition well_timed (c : Call) : Prop :=
  (0 <= idle c /\ 0 <= oversleep c /\ 0 <= duration c)%Q.

(** One run of [wrapper]: the state after it and the instant at which the
    wrapped function was started.  The [finally] clause stores the clock
    whether the function returned or raised. *)
Definition wrapper (c : Call) (st : Throttle) : Throttle * Q :=
  let current_time := (clock st + idle c)%Q in
  let elapsed_time := (current_time - _last_request_time st)%Q in
  let wait_time := (2 - elapsed_time)%Q in
  let started :=
    if Qlt_bool 0 wait_time
    then (current_time + wait_time + oversleep c)%Q
    else current_time in
  let finished := (started + duration c)%Q in
  (mkThrottle finished finished, started).

(** A sequence of guarded calls: final state and start instants. *)
Fixpoint guarded_calls (cs : list Call) (st : Throttle) : Throttle * list Q :=
  match cs with
  | [] => (st, [])
  | c :: rest =>
      let '(st1, started) := wrapper c st in
      let '(st2, starts) := guarded_calls rest st1 in
      (st2, started :: starts)
  end.

(** Start instants at least two seconds apart, each from the next. *)
Fixpoint spaced (starts : list Q) : Prop :=
  match starts with
  | a :: (b :: _) as rest => (a + 2 <= b)%Q /\ spaced rest
  | _ => True
  end.

(** The ledger in memory and the ledger on disk agree. *)
Definition synced (st : Run) : Prop :=
  persisted_rows (files st) (file_path (trader st)) = records (trader st).

(** Every closing price of the table is different from zero. *)
Definition priced (bar : Bar) : bool :=
  match bar_close bar with
  | Some c => negb (Qeq_bool c 0)
  | None => true
  end.

Definition market_priced (market_data : list Bar) : Prop :=
  forallb priced market_data = true.

(** ** Sample data

    Three sessions, a signal generator that always answers "BUY", report
    files and a disk that are chosen by the example. *)

Definition sample_market : list Bar :=
  [mkBar "2025-01-02" (Some 100%Q);
   mkBar "2025-01-03" (Some 110%Q);
   mkBar "2025-01-06" (Some 120%Q)].

Definition sample_env (reports : gmap string ReportFile) (disk_ok : bool) : Env :=
  mkEnv (fun _ => Some sample_market) reports (fun _ _ => Some "BUY"%string)
    (fun _ _ => disk_ok).

Definition sample_start : Run :=
  mkRun (TradeManager_init ∅ "AMZN" 100000).1 ∅ [].

(** The reports a first run over [sample_market] leaves behind. *)
Definition sample_reports : gmap string ReportFile :=
  {[ report_path_of "AMZN" "2025-01-02" := Decision "BUY";
     report_path_of "AMZN" "2025-01-03" := Decision "BUY" ]}.

(** A first run from an empty disk, and a second run from the files the
    first one wrote. *)
Definition first_run : Run * option Exn :=
  run_ticker (sample_env ∅ true) ∅ [] "AMZN".

Definition second_run : Run * option Exn :=
  run_ticker (sample_env sample_reports true) (files first_run.1) [] "AMZN".

(** ** Auxiliary views of [execute_trade]

    [settle] is the part of [execute_trade] before the record is built and
    [record_of] is the record; lemma [execute_trade_settles] relates them
    to [execute_trade] itself. *)

(** The record [execute_trade] builds once the position is settled. *)
Definition record_of (self1 : TradeManager) (date signal action : string)
    (open_price : Q) (shares_delta : Z) (amount : Q) : TradeRecord :=
  let total_value := (capital self1 + inject_Z (shares self1) * open_price)%Q in
  {| Date := date; Ticker := ticker self1; Signal := signal;
     Action := action; Open_Price := open_price;
     Shares_Delta := shares_delta; Transaction_Amount := amount;
     Cash := capital self1; Shares := shares self1;
     Total_Value := total_value;
     Cumulative_Return_Pct :=
       py_round2 ((total_value - initial_capital self1)
                  / initial_capital self1 * 100)%Q |}.

(** The position after the two branches, with what they report. *)
Definition settle (self : TradeManager) (signal : string) (open_price : Q)
  : TradeManager * (string * Z * Q) :=
  if String.eqb signal "BUY" && Qlt_bool 0 (capital self) then
    let buy_shares := py_int (capital self * 1 / open_price) in
    if 0 <? buy_shares then
      (set_position self (capital self - inject_Z buy_shares * open_price)%Q
         (shares self + buy_shares),
       ("BUY"%string, buy_shares, (inject_Z buy_shares * open_price)%Q))
    else (self, ("HOLD"%string, 0, 0%Q))
  else if String.eqb signal "SELL" && (0 <? shares self) then
    (set_position self (capital self + inject_Z (shares self) * open_price)%Q 0,
     ("SELL"%string, - shares self, (inject_Z (shares self) * open_price)%Q))
  else (self, ("HOLD"%string, 0, 0%Q)).

(** ** tradingagents/agents/utils/memory.py: FinancialSituationMemory *)

(** One stored situation of the collection: id, document, the
    ["recommendation"] of its metadata and its embedding vector. *)
Record Entry := mkEntry {
  entry_id : string;
  entry_document : string;
  entry_recommendation : string;
  entry_embedding : list Q
}.

(** How a method of the memory ends. *)
Inductive Ended :=
  | Returned
  | Raised.

(** [text.replace("\n", " ")] *)
Fixpoint replace_newlines (text : string) : string :=
  match text with
  | EmptyString => EmptyString
  | String c rest =>
      String (if Ascii.eqb c "010"%char then " "%char else c)
        (replace_newlines rest)
  end.

(** [get_embedding]: [embeddings_create] stands for the call of the
    embeddings endpoint with the configured model, [None] when it
    raises. *)
Definition get_embedding (embeddings_create : string -> option (list Q))
    (text : string) : option (list Q) :=
  embeddings_create (replace_newlines text).

(** [f"id_{n}"] *)
Definition situation_id (n : nat) : string := "id_" +:+ pretty n.

(** [situation_collection.add]: entries whose ids are new and distinct are
    appended.  What the store does when an id is already taken differs
    between its versions and is left to [on_clash]. *)
Definition collection_add
    (on_clash : list Entry -> list Entry -> list Entry * Ended)
    (collection new : list Entry) : list Entry * Ended :=
  if decide (NoDup (entry_id <$> (collection ++ new)))
  then (collection ++ new, Returned)
  else on_clash collection new.

(** The [for] loop of [add_situations] from index [i] on: the entries it
    prepares, [None] when a call of [get_embedding] raises. *)
Fixpoint prepare_entries (embeddings_create : string -> option (list Q))
    (offset i : nat) (situations_and_advice : list (string * string))
  : option (list Entry) :=
  match situations_and_advice with
  | [] => Some []
  | (situation, recommendation) :: rest =>
      match get_embedding embeddings_create situation with
      | None => None
      | Some v =>
          match prepare_entries embeddings_create offset (S i) rest with
          | None => None
          | Some entries =>
              Some (mkEntry (situation_id (offset + i)) situation
                      recommendation v :: entries)
          end
      end
  end.

(** [add_situations] *)
Definition add_situations
    (on_clash : list Entry -> list Entry -> list Entry * Ended)
    (embeddings_create : string -> option (list Q))
    (collection : list Entry) (situations_and_advice : list (string * string))
  : list Entry * Ended :=
  let offset := length collection in
  match prepare_entries embeddings_create offset 0 situations_and_advice with
  | None => (collection, Raised)
  | Some [] => (collection, Returned)
  | Some new => collection_add on_clash collection new
  end.

(** A collection whose ids are [id_0], [id_1], ... in order. *)
Definition numbered (collection : list Entry) : Prop :=
  entry_id <$> collection = situation_id <$> seq 0 (length collection).

(** ** visualize.py: ExcelSignalStrategy

    Dates are identified with their ['%Y-%m-%d'] text, as the ledger
    writes them; the orders passed to [self.buy] and [self.sell] are the
    result of [next]. *)

Inductive Order :=
  | BuyOrder (size : Q)
  | SellOrder (size : Q).

(** [drop_duplicates(subset=['Date'], keep='last')] *)
Fixpoint drop_duplicates_keep_last (rows : list TradeRecord)
  : list TradeRecord :=
  match rows with
  | [] => []
  | r :: rest =>
      if existsb (fun r' => String.eqb (Date r') (Date r)) rest
      then drop_duplicates_keep_last rest
      else r :: drop_duplicates_keep_last rest
  end.

(** [ExcelSignalStrategy.__init__]: the table [self.df_signals]. *)
Definition ExcelSignalStrategy_init (df_signals : list TradeRecord)
  : list TradeRecord :=
  drop_duplicates_keep_last df_signals.

(** [self.df_signals.loc[current_date]], reduced to its last row when
    several rows carry the date. *)
Definition row_at (df_signals : list TradeRecord) (current_date : string)
  : option TradeRecord :=
  last (List.filter (fun r => String.eqb (Date r) current_date) df_signals).

(** [ExcelSignalStrategy.next] *)
Definition ExcelSignalStrategy_next (df_signals : list TradeRecord)
    (current_date : string) : list Order :=
  match row_at df_signals current_date with
  | None => []
  | Some row =>
      let action := Action row in
      let shares_delta := inject_Z (Shares_Delta row) in
      if String.eqb action "BUY" then [BuyOrder shares_delta]
      else if String.eqb action "SELL" then [SellOrder (Qabs shares_delta)]
      else []
  end.

(** ** Further views of the ledger *)

(** A record whose total is its cash plus its shares at its price. *)
Definition conserved (r : TradeRecord) : Prop :=
  Total_Value r = (Cash r + inject_Z (Shares r) * Open_Price r)%Q.





(** The time the environment takes in a sequence of guarded calls:
    idling, oversleeping and running the wrapped functions. *)
Definition time_taken (cs : list Call) : Q :=
  fold_right (fun c acc => (idle c + oversleep c + duration c + acc)%Q) 0%Q cs.

(** ** Proof steps *)

(** Opens [loop_body] in hypothesis [H] along the lookups already
    known. *)
Ltac open_loop_body H :=
  unfold loop_body in H;
  repeat match goal with
         | E : get_loc _ _ = _ |- _ => rewrite E in H
         end;
  cbv zeta in H;
  repeat match goal with
         | E : _ !! _ = _ |- _ => rewrite E in H
         | E : bar_close _ = _ |- _ => rewrite E in H
         end;
  cbn beta iota in H.

(** * Properties *)

(** ** Python numbers *)

Lemma Qlt_bool_iff (x y : Q) : Qlt_bool x y = true <-> (x < y)%Q.
Proof.
  unfold Qlt_bool. rewrite negb_true_iff.
  split.
  - intros H. apply Qnot_le_lt. intros Hle.
    apply Qle_bool_iff in Hle. congruence.
  - intros H. destruct (Qle_bool y x) eqn:E; [|reflexivity].
    apply Qle_bool_iff in E. exfalso. exact (Qlt_not_le _ _ H E).
Qed.

Lemma Qlt_bool_false (x y : Q) : Qlt_bool x y = false <-> (y <= x)%Q.
Proof.
  unfold Qlt_bool. rewrite negb_false_iff. apply Qle_bool_iff.
Qed.

Lemma Qeq_bool_false (x y : Q) : ~ (x == y)%Q -> Qeq_bool x y = false.
Proof.
  intros H. destruct (Qeq_bool x y) eqn:E; [|reflexivity].
  apply Qeq_bool_iff in E. contradiction.
Qed.




(** ** The trade executor *)


(** With a non-zero price and a non-zero initial capital no division
    fails: [execute_trade] settles the position, appends the record and
    saves; only the save can still raise. *)
Lemma execute_trade_settles disk self fs date signal open_price :
  ~ (open_price == 0)%Q -> ~ (initial_capital self == 0)%Q ->
  let self1 := (settle self signal open_price).1 in
  let '(action, shares_delta, amount) := (settle self signal open_price).2 in
  let record := record_of self1 date signal action open_price shares_delta amount in
  let self2 := set_records self1 (records self ++ [record]) in
  execute_trade disk self fs date signal open_price =
    if disk (file_path self) (records self ++ [record])
    then (self2, <[file_path self := Sheet (records self ++ [record])]> fs, Ok record)
    else (self2, fs, Raise OSError).
Proof.
  intros Hp Hic.
  unfold execute_trade, settle, save_to_excel, record_of.
  rewrite (Qeq_bool_false _ _ Hp).
  destruct (String.eqb signal "BUY" && Qlt_bool 0 (capital self)).
  - destruct (0 <? py_int (capital self * 1 / open_price));
      cbn [fst snd initial_capital set_position set_records capital shares
           records file_path ticker];
      rewrite (Qeq_bool_false _ _ Hic);
      match goal with |- context [if disk ?p ?r then _ else _] =>
        destruct (disk p r) end; reflexivity.
  - destruct (String.eqb signal "SELL" && (0 <? shares self));
      cbn [fst snd initial_capital set_position set_records capital shares
           records file_path ticker];
      rewrite (Qeq_bool_false _ _ Hic);
      match goal with |- context [if disk ?p ?r then _ else _] =>
        destruct (disk p r) end; reflexivity.
Qed.


Lemma settle_sell self open_price :
  0 < shares self ->
  settle self "SELL" open_price =
    (set_position self (capital self + inject_Z (shares self) * open_price)%Q 0,
     ("SELL"%string, - shares self, (inject_Z (shares self) * open_price)%Q)).
Proof.
  intros Hs. unfold settle.
  change (String.eqb "SELL" "BUY") with false.
  change (String.eqb "SELL" "SELL") with true.
  apply Z.ltb_lt in Hs. rewrite Hs. reflexivity.
Qed.

Lemma settle_hold self signal open_price :
  (signal = "BUY" -> (capital self <= 0)%Q) ->
  (signal = "SELL" -> shares self <= 0) ->
  settle self signal open_price = (self, ("HOLD"%string, 0, 0%Q)).
Proof.
  intros Hb Hs. unfold settle.
  destruct (String.eqb_spec signal "BUY") as [E|E].
  - apply Hb, Qlt_bool_false in E. rewrite E. simpl.
    destruct (String.eqb_spec signal "SELL") as [E'|E']; [|reflexivity].
    apply Hs, Z.ltb_ge in E'. rewrite E'. reflexivity.
  - simpl. destruct (String.eqb_spec signal "SELL") as [E'|E']; [|reflexivity].
    apply Hs, Z.ltb_ge in E'. rewrite E'. reflexivity.
Qed.

(** What every successful settlement has in common, in the shape the
    theorems below use. *)
Lemma execute_trade_shape disk self fs date signal open_price
    self1 action shares_delta amount :
  ~ (open_price == 0)%Q -> ~ (initial_capital self == 0)%Q ->
  settle self signal open_price = (self1, (action, shares_delta, amount)) ->
  let out := execute_trade disk self fs date signal open_price in
  let record := record_of self1 date signal action open_price shares_delta amount in
  records out.1.1 = records self ++ [record]
  /\ capital out.1.1 = capital self1
  /\ shares out.1.1 = shares self1
  /\ initial_capital out.1.1 = initial_capital self1
  /\ out.2 = (if disk (file_path self) (records self ++ [record])
              then Ok record else Raise OSError)
  /\ out.1.2 = (if disk (file_path self) (records self ++ [record])
                then <[file_path self := Sheet (records self ++ [record])]> fs
                else fs).
Proof.
  intros Hp Hic Hs out record. subst out.
  pose proof (execute_trade_settles disk self fs date signal open_price Hp Hic) as H.
  cbv zeta in H. rewrite Hs in H. cbn [fst snd] in H. rewrite H.
  fold record.
  destruct (disk (file_path self) (records self ++ [record]));
    repeat split; reflexivity.
Qed.



(** The worked example of the specification: cash 1000, price 300. *)
Example buy_1000_at_300 :
  let out := execute_trade (fun _ _ => true)
               (TradeManager_init ∅ "AMZN" 1000).1 ∅ "2025-01-03" "BUY" 300 in
  capital out.1.1 = 100%Q /\ shares out.1.1 = 3
  /\ exists record, out.2 = Ok record
       /\ Action record = "BUY" /\ Shares_Delta record = 3.
Proof. vm_compute. repeat split. eexists. repeat split. Qed.

(** The degenerate BUY of the specification: cash 50, price 300. *)
Example buy_50_at_300 :
  let out := execute_trade (fun _ _ => true)
               (TradeManager_init ∅ "AMZN" 50).1 ∅ "2025-01-03" "BUY" 300 in
  capital out.1.1 = 50%Q /\ shares out.1.1 = 0
  /\ exists record, out.2 = Ok record
       /\ Action record = "HOLD" /\ Shares_Delta record = 0.
Proof. vm_compute. repeat split. eexists. repeat split. Qed.

(** C6.  A SELL with shares in hand liquidates the whole position: cash
    goes up by [shares * price], shares become 0 and the record says SELL.
    In the remaining cases (BUY with no cash, SELL with no shares, signal
    HOLD) the record says HOLD and cash and shares stay as they were. *)
Theorem sell_liquidates_else_hold disk self fs date signal open_price :
  (0 < open_price)%Q -> ~ (initial_capital self == 0)%Q ->
  let out := execute_trade disk self fs date signal open_price in
  let self' := out.1.1 in
  exists record,
    records self' = records self ++ [record]
    /\ out.2 = (if disk (file_path self) (records self')
                then Ok record else Raise OSError)
    /\ (signal = "SELL" -> 0 < shares self ->
        Action record = "SELL"
        /\ capital self' = (capital self + inject_Z (shares self) * open_price)%Q
        /\ shares self' = 0)
    /\ ((signal = "BUY" /\ (capital self == 0)%Q)
        \/ (signal = "SELL" /\ shares self = 0)
        \/ signal = "HOLD" ->
        Action record = "HOLD"
        /\ capital self' = capital self /\ shares self' = shares self).
Proof.
  intros Hp Hic out self'.
  assert (Hp0 : ~ (open_price == 0)%Q) by lra.
  destruct (settle self signal open_price) as [self1 [[action delta] amount]] eqn:Hs.
  destruct (execute_trade_shape disk self fs date signal open_price
              _ _ _ _ Hp0 Hic Hs) as (Hr & Hcap & Hsh & _ & Hres & _).
  fold out in Hr, Hcap, Hsh, Hres. fold self' in Hr, Hcap, Hsh.
  eexists. split; [exact Hr|]. split; [rewrite Hr; exact Hres|]. split.
  - intros -> Hpos. rewrite (settle_sell self open_price Hpos) in Hs.
    injection Hs as <- <- <- <-. rewrite Hcap, Hsh. repeat split; reflexivity.
  - intros Hcase.
    rewrite settle_hold in Hs.
    + injection Hs as <- <- <- <-. rewrite Hcap, Hsh. repeat split; reflexivity.
    + intros ->. destruct Hcase as [[_ E]|[[E _]|E]]; [lra|discriminate..].
    + intros ->. destruct Hcase as [[E _]|[[_ E]|E]]; [discriminate|lia|discriminate].
Qed.

Lemma sell_liquidates_else_hold_witness :
  (0 < 50)%Q /\ ~ (100000 == 0)%Q
  /\ exists record,
       records (execute_trade (fun _ _ => true)
                  (set_position (TradeManager_init ∅ "AMZN" 100000).1 0 10) ∅
                  "2025-01-03" "SELL" 50).1.1 = [record]
       /\ Action record = "SELL" /\ Cash record = 500%Q /\ Shares record = 0.
Proof.
  assert (Hp : (0 < 50)%Q) by reflexivity.
  assert (Hic : ~ (initial_capital
                     (set_position (TradeManager_init ∅ "AMZN" 100000).1 0 10)
                   == 0)%Q) by (vm_compute; discriminate).
  split; [reflexivity|]. split; [discriminate|].
  destruct (sell_liquidates_else_hold (fun _ _ => true)
              (set_position (TradeManager_init ∅ "AMZN" 100000).1 0 10) ∅
              "2025-01-03" "SELL" 50 Hp Hic)
    as (record & Hr & Hres & Hsell & _).
  exists record.
  destruct (Hsell eq_refl) as (Ha & Hcap & Hsh); [reflexivity|].
  split; [exact Hr|]. split; [exact Ha|].
  vm_compute in Hres. injection Hres as <-.
  split; reflexivity.
Defined.





(** C2, as amended.  [execute_trade] is a function of the object, the
    files, the date, the signal and the price, but it is not free of
    effects: it appends the record and then saves, so that when the write
    is let through the ledger file holds the whole record list, new record
    included, by the time the record is returned. *)
Theorem execute_trade_saves_ledger disk self fs date signal open_price :
  (0 < open_price)%Q -> ~ (initial_capital self == 0)%Q ->
  let out := execute_trade disk self fs date signal open_price in
  disk (file_path self) (records out.1.1) = true ->
  exists record,
    out.2 = Ok record
    /\ records out.1.1 = records self ++ [record]
    /\ out.1.2 = <[file_path self := Sheet (records self ++ [record])]> fs
    /\ persisted_rows out.1.2 (file_path self) = records out.1.1.
Proof.
  intros Hp Hic out Hdisk.
  assert (Hp0 : ~ (open_price == 0)%Q) by lra.
  destruct (settle self signal open_price) as [self1 [[action delta] amount]] eqn:Hs.
  destruct (execute_trade_shape disk self fs date signal open_price
              _ _ _ _ Hp0 Hic Hs) as (Hr & _ & _ & _ & Hres & Hfs).
  fold out in Hr, Hres, Hfs.
  rewrite Hr in Hdisk. rewrite Hdisk in Hres, Hfs.
  eexists. split; [exact Hres|]. split; [exact Hr|]. split; [exact Hfs|].
  rewrite Hfs, Hr. unfold persisted_rows. rewrite lookup_insert_eq. reflexivity.
Qed.

Lemma execute_trade_saves_ledger_witness :
  (0 < 300)%Q /\ ~ (1000 == 0)%Q
  /\ exists record,
       persisted_rows
         (execute_trade (fun _ _ => true) (TradeManager_init ∅ "AMZN" 1000).1 ∅
            "2025-01-03" "HOLD" 300).1.2
         "results/AMZN_backtest_results.xlsx" = [record].
Proof.
  assert (Hp : (0 < 300)%Q) by reflexivity.
  assert (Hic : ~ (initial_capital (TradeManager_init ∅ "AMZN" 1000).1 == 0)%Q)
    by (vm_compute; discriminate).
  split; [reflexivity|]. split; [discriminate|].
  destruct (execute_trade_saves_ledger (fun _ _ => true)
              (TradeManager_init ∅ "AMZN" 1000).1 ∅ "2025-01-03" "HOLD" 300
              Hp Hic eq_refl) as (record & _ & Hr & _ & Hrows).
  exists record. etransitivity; [exact Hrows|]. rewrite Hr. reflexivity.
Defined.

(** C2, as stated, fails: a HOLD on a fresh ledger with no file on disk
    leaves a ledger file behind. *)
Lemma execute_trade_persists_counterexample :
  (∅ : gmap string XlsxFile) !! "results/AMZN_backtest_results.xlsx" = None
  /\ exists record,
       (execute_trade (fun _ _ => true) (TradeManager_init ∅ "AMZN" 1000).1 ∅
          "2025-01-03" "HOLD" 300).1.2
         !! "results/AMZN_backtest_results.xlsx" = Some (Sheet [record]).
Proof.
  split; [reflexivity|]. eexists. vm_compute. reflexivity.
Qed.

(** Why the theorems above ask for a non-zero initial capital: with 0 the
    return computation divides by zero, whatever the signal. *)
Example zero_initial_capital_raises :
  (execute_trade (fun _ _ => true) (TradeManager_init ∅ "AMZN" 0).1 ∅
     "2025-01-03" "HOLD" 300).2 = Raise ZeroDivisionError.
Proof. vm_compute. reflexivity. Qed.

(** ** The ledger store *)

Lemma init_fresh ticker ic :
  TradeManager_init ∅ ticker ic
  = (mkTradeManager ticker ic 0 ic []
       ("results/" +:+ ticker +:+ "_backtest_results.xlsx"), []).
Proof. unfold TradeManager_init. cbn [file_path]. rewrite lookup_empty. reflexivity. Qed.



(** ** The throttle gate *)

(** One guarded call starts no earlier than two seconds after the stored
    instant and no earlier than [wrapper] was entered, and stores the
    instant at which the wrapped function finished. *)
Lemma wrapper_start (c : Call) (st : Throttle) :
  well_timed c ->
  let '(st', started) := wrapper c st in
  (_last_request_time st + 2 <= started)%Q
  /\ (clock st <= started)%Q
  /\ (started <= clock st')%Q
  /\ _last_request_time st' = clock st'.
Proof.
  intros (Hi & Ho & Hd). unfold wrapper. cbn [clock _last_request_time].
  destruct (Qlt_bool 0 (2 - (clock st + idle c - _last_request_time st))) eqn:E.
  - apply Qlt_bool_iff in E. repeat split; try lra.
  - apply Qlt_bool_false in E. repeat split; try lra.
Qed.

Lemma guarded_calls_spacing (cs : list Call) :
  Forall well_timed cs ->
  forall st,
    let '(st', starts) := guarded_calls cs st in
    length starts = length cs
    /\ spaced starts
    /\ (clock st <= clock st')%Q
    /\ (cs <> [] -> _last_request_time st' = clock st')
    /\ (forall first, head starts = Some first ->
        (_last_request_time st + 2 <= first)%Q
        /\ (clock st <= first)%Q
        /\ (first + inject_Z (Z.of_nat (length cs) - 1) * 2 <= clock st')%Q).
Proof.
  induction 1 as [|c cs Hc Hcs IH]; intros st.
  - cbn. repeat split; try lra; try done.
  - cbn [guarded_calls].
    pose proof (wrapper_start c st Hc) as Hw.
    destruct (wrapper c st) as [st1 started].
    destruct Hw as (Hw1 & Hw2 & Hw3 & Hw4).
    specialize (IH st1).
    destruct (guarded_calls cs st1) as [st2 starts] eqn:Hg.
    destruct IH as (Hlen & Hsp & Hmono & Hlast & Hfirst).
    split; [cbn; lia|]. split.
    { destruct starts as [|b starts']; [exact I|].
      split; [|exact Hsp].
      destruct (Hfirst b eq_refl) as (Hb & _ & _). rewrite Hw4 in Hb. lra. }
    split; [lra|]. split.
    { intros _. destruct cs as [|c' cs'].
      - cbn in Hg. injection Hg as <- <-. exact Hw4.
      - apply Hlast. discriminate. }
    intros first [= <-]. split; [exact Hw1|]. split; [exact Hw2|].
    cbn [length]. rewrite Nat2Z.inj_succ.
    destruct starts as [|b starts'].
    + destruct cs; [|discriminate]. cbn in Hg. injection Hg as <-.
      change (inject_Z (Z.succ (Z.of_nat (length (@nil Call))) - 1)) with 0%Q. lra.
    + destruct (Hfirst b eq_refl) as (Hb & _ & Hend). rewrite Hw4 in Hb.
      replace (Z.succ (Z.of_nat (length cs)) - 1)
        with ((Z.of_nat (length cs) - 1) + 1) by lia.
      rewrite inject_Z_plus. change (inject_Z 1) with 1%Q. lra.
Qed.

Lemma spaced_lookup (starts : list Q) (i : nat) (a b : Q) :
  spaced starts -> starts !! i = Some a -> starts !! S i = Some b ->
  (a + 2 <= b)%Q.
Proof.
  revert i. induction starts as [|x starts IH]; intros i Hsp Ha Hb.
  - discriminate.
  - destruct starts as [|y starts']; [discriminate|].
    destruct Hsp as [Hxy Hsp].
    destruct i as [|i].
    + cbn in Ha, Hb. injection Ha as <-. injection Hb as <-. exact Hxy.
    + exact (IH i Hsp Ha Hb).
Qed.

(** C9.  In a sequence of N guarded calls, whatever the idle times, the
    oversleeping and the running times, each call starts at least 2
    seconds after the one before it; hence from the start of the first
    call to the end of the last one at least [(N-1)*2] seconds pass, and
    so does from the instant before the first call.  This covers calls of
    zero running time. *)
Theorem throttle_min_spacing (cs : list Call) (st : Throttle) :
  Forall well_timed cs ->
  let st' := (guarded_calls cs st).1 in
  let starts := (guarded_calls cs st).2 in
  length starts = length cs
  /\ (forall i a b,
        starts !! i = Some a -> starts !! S i = Some b -> (a + 2 <= b)%Q)
  /\ (forall first,
        head starts = Some first ->
        (inject_Z (Z.of_nat (length cs) - 1) * 2 <= clock st' - first)%Q)
  /\ (cs <> [] ->
      (inject_Z (Z.of_nat (length cs) - 1) * 2 <= clock st' - clock st)%Q).
Proof.
  intros Hcs st' starts. subst st' starts.
  pose proof (guarded_calls_spacing cs Hcs st) as H.
  destruct (guarded_calls cs st) as [st' starts]. cbn [fst snd].
  destruct H as (Hlen & Hsp & _ & _ & Hfirst).
  split; [exact Hlen|]. split.
  { intros i a b Ha Hb. exact (spaced_lookup starts i a b Hsp Ha Hb). }
  split.
  { intros first Hf. destruct (Hfirst first Hf) as (_ & _ & Hend). lra. }
  intros Hne. destruct starts as [|first starts'].
  - destruct cs; [contradiction|discriminate].
  - destruct (Hfirst first eq_refl) as (_ & Hge & Hend). lra.
Qed.

Lemma throttle_min_spacing_witness :
  Forall well_timed [mkCall 0 0 0; mkCall 0 0 0; mkCall 0 0 0]
  /\ (guarded_calls [mkCall 0 0 0; mkCall 0 0 0; mkCall 0 0 0]
        (mkThrottle 100 0)).2 = [100%Q; 102%Q; 104%Q]
  /\ (inject_Z (Z.of_nat 3 - 1) * 2
      <= clock (guarded_calls [mkCall 0 0 0; mkCall 0 0 0; mkCall 0 0 0]
                  (mkThrottle 100 0)).1 - 100)%Q.
Proof.
  assert (Hcs : Forall well_timed [mkCall 0 0 0; mkCall 0 0 0; mkCall 0 0 0]).
  { repeat (constructor; [repeat split; apply Qle_refl|]). constructor. }
  split; [exact Hcs|]. split; [vm_compute; reflexivity|].
  destruct (throttle_min_spacing
              [mkCall 0 0 0; mkCall 0 0 0; mkCall 0 0 0] (mkThrottle 100 0) Hcs)
    as (_ & _ & Hspan & _).
  exact (Hspan 100%Q eq_refl).
Defined.

(** ** The day loop *)

(** A day that has a following bar with a closing price, and whose report
    is missing or readable, reaches [execute_trade] with some signal; the
    iteration then goes on to the next day whether the call returns or
    raises. *)
Lemma loop_body_executes env ticker market_data total st idx d loc bar p :
  get_loc d market_data = Some loc ->
  market_data !! S loc = Some bar ->
  bar_close bar = Some p ->
  reports env !! report_path_of ticker d <> Some Unparsable ->
  exists signal st0,
    trader st0 = trader st /\ files st0 = files st
    /\ loop_body env ticker market_data total st idx d =
       match execute_trade (disk env) (trader st) (files st)
               (bar_date bar) signal p with
       | (trader', files', Ok record) =>
           (mkRun trader' files'
              (log st0 ++ [LedgerUpdated (bar_date bar) (Action record)
                             (py_int (Total_Value record))]),
            Continue)
       | (trader', files', Raise e) =>
           (mkRun trader' files' (log st0 ++ [BookkeepingFailed e]), Continue)
       end.
Proof.
  intros Hloc Hbar Hclose Hrep.
  unfold loop_body. rewrite Hloc. cbv zeta. rewrite Hbar, Hclose.
  destruct (reports env !! report_path_of ticker d) as [[s|]|] eqn:E.
  - cbn beta iota. rewrite E.
    eexists s, _. split; [|split; [|reflexivity]]; reflexivity.
  - contradiction.
  - cbn beta iota. rewrite E.
    destruct (run_analysis_execution env ticker d) as [s|].
    + eexists s, _. split; [|split; [|reflexivity]]; reflexivity.
    + eexists "HOLD"%string, _. split; [|split; [|reflexivity]]; reflexivity.
Qed.

(** C3: the behaviour of the loop on a report that exists but cannot be
    read or parsed.  The [except] clause replaces [report_path] by [None]
    and the next test calls [.exists()] on it: the iteration ends in an
    [AttributeError] that nothing catches.  The signal generator is not
    invoked, no record is made, and the day loop stops there. *)
Theorem unreadable_report_aborts_run env ticker market_data total st idx d rest
    loc bar p :
  get_loc d market_data = Some loc ->
  market_data !! S loc = Some bar ->
  bar_close bar = Some p ->
  reports env !! report_path_of ticker d = Some Unparsable ->
  let st' :=
    mkRun (trader st) (files st)
      (log st ++ [DayHeader ticker d (S idx) total;
                  ReportFound (report_path_of ticker d);
                  ReportReadFailed]) in
  loop_body env ticker market_data total st idx d = (st', Propagate AttributeError)
  /\ run_days env ticker market_data total st idx (d :: rest)
     = (st', Some AttributeError).
Proof.
  intros Hloc Hbar Hclose Hrep st'.
  assert (H : loop_body env ticker market_data total st idx d
              = (st', Propagate AttributeError)).
  { unfold loop_body. rewrite Hloc. cbv zeta. rewrite Hbar, Hclose, Hrep.
    cbn beta iota. unfold say. cbn [trader files log].
    subst st'. repeat rewrite <- app_assoc. reflexivity. }
  split; [exact H|].
  cbn [run_days]. rewrite H. reflexivity.
Qed.

Lemma unreadable_report_aborts_run_witness :
  get_loc "2025-01-02" sample_market = Some 0%nat
  /\ sample_market !! 1%nat = Some (mkBar "2025-01-03" (Some 110%Q))
  /\ (run_days
        (sample_env {[ report_path_of "AMZN" "2025-01-02" := Unparsable ]} true)
        "AMZN" sample_market 3 sample_start 0
        ["2025-01-02"; "2025-01-03"; "2025-01-06"]).2 = Some AttributeError.
Proof.
  split; [reflexivity|]. split; [reflexivity|].
  destruct (unreadable_report_aborts_run
              (sample_env {[ report_path_of "AMZN" "2025-01-02" := Unparsable ]} true)
              "AMZN" sample_market 3 sample_start 0 "2025-01-02"
              ["2025-01-03"; "2025-01-06"] 0%nat
              (mkBar "2025-01-03" (Some 110%Q)) 110%Q
              eq_refl eq_refl eq_refl (lookup_singleton_eq _ _)) as [_ H].
  rewrite H. reflexivity.
Defined.

(** The whole program on that input: the first ticker's first day has an
    unreadable report; [main] ends with the exception, having asked the
    signal generator nothing, written no ledger and never reached the
    second ticker. *)
Example main_stops_at_unreadable_report :
  main (sample_env {[ report_path_of "AMZN" "2025-01-02" := Unparsable ]} true) ∅
  = (∅,
     [Banner; Downloading "AMZN"; DaysToSimulate "AMZN" 3;
      DayHeader "AMZN" "2025-01-02" 1 3;
      ReportFound "results/AMZN/2025-01-02/reports/final_trade_decision.md";
      ReportReadFailed],
     Some AttributeError).
Proof. vm_compute. reflexivity. Qed.

(** The same days without the report: the generator is asked and the run
    goes through. *)
Example main_without_report_completes :
  (main (sample_env ∅ true) ∅).2 = None.
Proof. vm_compute. reflexivity. Qed.

Lemma settle_keeps self signal open_price :
  let self1 := (settle self signal open_price).1 in
  file_path self1 = file_path self
  /\ initial_capital self1 = initial_capital self
  /\ records self1 = records self
  /\ ticker self1 = ticker self.
Proof.
  unfold settle.
  repeat match goal with
         | |- context [if ?b then _ else _] => destruct b
         end; repeat split; reflexivity.
Qed.

(** With a non-zero price and a non-zero initial capital the record is
    appended and the position is the one it reports, whether the save
    goes through or not. *)
Lemma execute_trade_appends disk self fs date signal open_price :
  ~ (open_price == 0)%Q -> ~ (initial_capital self == 0)%Q ->
  exists record self',
    records self' = records self ++ [record]
    /\ file_path self' = file_path self
    /\ initial_capital self' = initial_capital self
    /\ capital self' = Cash record /\ shares self' = Shares record
    /\ Date record = date /\ Signal record = signal
    /\ execute_trade disk self fs date signal open_price =
       if disk (file_path self) (records self ++ [record])
       then (self', <[file_path self := Sheet (records self ++ [record])]> fs,
             Ok record)
       else (self', fs, Raise OSError).
Proof.
  intros Hp Hic.
  pose proof (execute_trade_settles disk self fs date signal open_price Hp Hic) as H.
  cbv zeta in H.
  destruct (settle_keeps self signal open_price) as (Hfp & Hcap & _ & _).
  destruct (settle self signal open_price) as [self1 [[action delta] amount]].
  cbn [fst snd] in H, Hfp, Hcap.
  exists (record_of self1 date signal action open_price delta amount).
  exists (set_records self1
            (records self
             ++ [record_of self1 date signal action open_price delta amount])).
  repeat split; [..|exact H]; try assumption; reflexivity.
Qed.

(** C4, as amended.  On a day whose save is refused, the trade has
    already been applied to the object in memory and stays applied: the
    day's record is at the end of [records] and cash and shares are the
    ones it reports.  The files are as before, the failure is printed, and
    the loop goes on with the next day. *)
Theorem failed_save_keeps_mutation env ticker market_data total st idx d rest
    loc bar p :
  get_loc d market_data = Some loc ->
  market_data !! S loc = Some bar ->
  bar_close bar = Some p ->
  (0 < p)%Q ->
  ~ (initial_capital (trader st) == 0)%Q ->
  reports env !! report_path_of ticker d <> Some Unparsable ->
  (forall rows, disk env (file_path (trader st)) rows = false) ->
  exists record st',
    loop_body env ticker market_data total st idx d = (st', Continue)
    /\ run_days env ticker market_data total st idx (d :: rest)
       = run_days env ticker market_data total st' (S idx) rest
    /\ records (trader st') = records (trader st) ++ [record]
    /\ Date record = bar_date bar
    /\ capital (trader st') = Cash record
    /\ shares (trader st') = Shares record
    /\ files st' = files st
    /\ last (log st') = Some (BookkeepingFailed OSError).
Proof.
  intros Hloc Hbar Hclose Hp Hic Hrep Hdisk.
  assert (Hp0 : ~ (p == 0)%Q) by lra.
  destruct (loop_body_executes env ticker market_data total st idx d loc bar p
              Hloc Hbar Hclose Hrep) as (signal & st0 & _ & _ & Hbody).
  destruct (execute_trade_appends (disk env) (trader st) (files st)
              (bar_date bar) signal p Hp0 Hic)
    as (record & self' & Hr & _ & _ & Hcap & Hsh & Hdate & _ & Hexec).
  rewrite Hdisk in Hexec. rewrite Hexec in Hbody.
  exists record, (mkRun self' (files st) (log st0 ++ [BookkeepingFailed OSError])).
  split; [exact Hbody|]. split.
  { cbn [run_days]. rewrite Hbody. reflexivity. }
  cbn [trader files log]. repeat split; try assumption.
  apply last_snoc.
Qed.

Lemma failed_save_keeps_mutation_witness :
  (0 < 110)%Q /\ ~ (100000 == 0)%Q
  /\ exists record,
       records (trader
                  (loop_body (sample_env ∅ false) "AMZN" sample_market 3
                     sample_start 0 "2025-01-02").1)
       = [record]
       /\ Date record = "2025-01-03".
Proof.
  split; [reflexivity|]. split; [discriminate|].
  assert (Hic : ~ (initial_capital (trader sample_start) == 0)%Q)
    by (vm_compute; discriminate).
  assert (Hrep : reports (sample_env ∅ false)
                   !! report_path_of "AMZN" "2025-01-02" <> Some Unparsable)
    by (vm_compute; discriminate).
  destruct (failed_save_keeps_mutation (sample_env ∅ false) "AMZN"
              sample_market 3 sample_start 0 "2025-01-02" [] 0%nat
              (mkBar "2025-01-03" (Some 110%Q)) 110%Q
              eq_refl eq_refl eq_refl eq_refl Hic Hrep (fun _ => eq_refl))
    as (record & st' & Hbody & _ & Hr & Hdate & _).
  exists record. rewrite Hbody. split; [exact Hr|exact Hdate].
Defined.

(** C4, as stated, fails: the first day is a BUY at 110 with 100000 in
    cash and a disk that refuses the write.  Nothing has ever been saved,
    yet the object in memory holds 909 shares, 10 in cash and one
    record. *)
Lemma failed_save_not_rolled_back_counterexample :
  files (loop_body (sample_env ∅ false) "AMZN" sample_market 3
           sample_start 0 "2025-01-02").1 = ∅
  /\ capital (trader sample_start) = 100000%Q
  /\ shares (trader sample_start) = 0
  /\ records (trader sample_start) = []
  /\ capital (trader (loop_body (sample_env ∅ false) "AMZN" sample_market 3
                        sample_start 0 "2025-01-02").1) = 10%Q
  /\ shares (trader (loop_body (sample_env ∅ false) "AMZN" sample_market 3
                       sample_start 0 "2025-01-02").1) = 909
  /\ length (records (trader (loop_body (sample_env ∅ false) "AMZN"
                                sample_market 3 sample_start 0
                                "2025-01-02").1)) = 1%nat.
Proof. vm_compute. repeat split. Qed.

(** ** Resuming from a saved ledger *)

(** The constructor always yields an object that agrees with the disk: a
    missing, unreadable or empty file gives no records, a file with rows
    gives those rows. *)
Lemma init_synced fs ticker ic :
  let tm := (TradeManager_init fs ticker ic).1 in
  file_path tm = "results/" +:+ ticker +:+ "_backtest_results.xlsx"
  /\ initial_capital tm = ic
  /\ records tm = persisted_rows fs (file_path tm).
Proof.
  unfold TradeManager_init, load_state, persisted_rows. cbn [file_path].
  destruct (fs !! ("results/" +:+ ticker +:+ "_backtest_results.xlsx"))
    as [[rows|]|] eqn:E.
  - destruct (last rows) as [last_row|] eqn:L;
      cbn [fst file_path initial_capital records set_records set_position];
      rewrite E; repeat split; try reflexivity.
    apply last_None in L. subst rows. reflexivity.
  - cbn [fst file_path initial_capital records]. rewrite E.
    repeat split; reflexivity.
  - cbn [fst file_path initial_capital records]. rewrite E.
    repeat split; reflexivity.
Qed.

Section AcceptingDisk.

Variable env : Env.
Variable ticker : string.
Variable market_data : list Bar.
Variable total : nat.

Hypothesis disk_accepts : forall path rows, disk env path rows = true.
Hypothesis prices : market_priced market_data.

Lemma bar_price_nonzero (i : nat) (bar : Bar) (p : Q) :
  market_data !! i = Some bar -> bar_close bar = Some p -> ~ (p == 0)%Q.
Proof using prices.
  intros Hbar Hclose.
  apply list_elem_of_lookup_2, list_elem_of_In in Hbar.
  pose proof (proj1 (forallb_forall priced market_data) prices bar Hbar) as Hb.
  unfold priced in Hb. rewrite Hclose in Hb. apply negb_true_iff in Hb.
  apply Qeq_bool_neq. exact Hb.
Qed.

(** One iteration: the object keeps agreeing with the disk, and what it
    adds to the records is what [exec_dates] foresees for the day. *)
Lemma loop_body_step st idx d rest st' fl :
  ~ (initial_capital (trader st) == 0)%Q ->
  synced st ->
  loop_body env ticker market_data total st idx d = (st', fl) ->
  file_path (trader st') = file_path (trader st)
  /\ initial_capital (trader st') = initial_capital (trader st)
  /\ synced st'
  /\ match fl with
     | Continue =>
         exists new,
           records (trader st') = records (trader st) ++ new
           /\ exec_dates market_data (d :: rest)
              = (Date <$> new) ++ exec_dates market_data rest
     | Break =>
         records (trader st') = records (trader st)
         /\ exec_dates market_data (d :: rest) = []
     | Propagate _ => True
     end.
Proof using disk_accepts prices.
  intros Hic Hsync Hbody. cbn [exec_dates].
  destruct (get_loc d market_data) as [loc|] eqn:Hloc.
  2: { open_loop_body Hbody. injection Hbody as <- <-.
       repeat split; try exact Hsync.
       exists []. rewrite app_nil_r. split; reflexivity. }
  destruct (market_data !! S loc) as [bar|] eqn:Hbar.
  2: { open_loop_body Hbody. injection Hbody as <- <-.
       repeat split; exact Hsync. }
  destruct (bar_close bar) as [p|] eqn:Hclose.
  2: { open_loop_body Hbody. injection Hbody as <- <-.
       repeat split; try exact Hsync.
       exists []. rewrite app_nil_r. split; reflexivity. }
  pose proof (bar_price_nonzero _ _ _ Hbar Hclose) as Hp0.
  destruct (reports env !! report_path_of ticker d) as [[s|]|] eqn:Hrep.
  2: { open_loop_body Hbody. injection Hbody as <- <-.
       repeat split; exact Hsync. }
  all: destruct (loop_body_executes env ticker market_data total st idx d
                   loc bar p Hloc Hbar Hclose) as (signal & st0 & _ & _ & Hb);
    [rewrite Hrep; discriminate|];
    destruct (execute_trade_appends (disk env) (trader st) (files st)
                (bar_date bar) signal p Hp0 Hic)
      as (record & self' & Hr & Hfp & Hcap & _ & _ & Hdate & _ & Hexec);
    rewrite disk_accepts in Hexec; rewrite Hexec in Hb; rewrite Hb in Hbody;
    injection Hbody as <- <-; cbn [trader files log];
    (split; [exact Hfp|]); (split; [exact Hcap|]); split;
    [ unfold synced, persisted_rows; cbn [trader files];
      rewrite Hfp, lookup_insert_eq, Hr; reflexivity
    | exists [record]; split; [exact Hr|];
      cbn; rewrite Hdate; reflexivity ].
Qed.

(** The day loop: if it ends without exception, the records it adds
    carry exactly the T+1 dates of the days it covers. *)
Lemma run_days_appends days :
  forall st idx st',
    ~ (initial_capital (trader st) == 0)%Q ->
    synced st ->
    run_days env ticker market_data total st idx days = (st', None) ->
    file_path (trader st') = file_path (trader st)
    /\ synced st'
    /\ exists new,
         records (trader st') = records (trader st) ++ new
         /\ Date <$> new = exec_dates market_data days.
Proof using disk_accepts prices.
  induction days as [|d rest IH]; intros st idx st' Hic Hsync Hrun.
  - cbn in Hrun. injection Hrun as <-. split; [reflexivity|].
    split; [exact Hsync|]. exists []. rewrite app_nil_r. split; reflexivity.
  - cbn [run_days] in Hrun.
    destruct (loop_body env ticker market_data total st idx d)
      as [st1 fl] eqn:Hbody.
    destruct (loop_body_step st idx d rest st1 fl Hic Hsync Hbody)
      as (Hfp & Hcap & Hsync1 & Hfl).
    destruct fl as [| |e].
    + destruct Hfl as (new1 & Hr1 & Hdates).
      destruct (IH st1 (S idx) st') as (Hfp2 & Hsync2 & new2 & Hr2 & Hd2);
        [rewrite Hcap; exact Hic|exact Hsync1|exact Hrun|].
      split; [congruence|]. split; [exact Hsync2|].
      exists (new1 ++ new2). split.
      * rewrite Hr2, Hr1, app_assoc. reflexivity.
      * rewrite fmap_app, Hd2, Hdates. reflexivity.
    + injection Hrun as <-. destruct Hfl as [Hr Hdates].
      split; [exact Hfp|]. split; [exact Hsync1|].
      exists []. rewrite app_nil_r, Hdates. split; [exact Hr|reflexivity].
    + discriminate.
Qed.

End AcceptingDisk.

(** One run of a ticker that ends without exception, on a disk that
    accepts every write: the saved ledger is the one found at the start
    followed by one new record per executed day. *)
Lemma run_ticker_appends env fs out ticker st' :
  (forall path rows, disk env path rows = true) ->
  market_priced (get_market_data env ticker).1 ->
  run_ticker env fs out ticker = (st', None) ->
  let path := ("results/" +:+ ticker +:+ "_backtest_results.xlsx")%string in
  let market_data := (get_market_data env ticker).1 in
  exists new,
    persisted_rows (files st') path = persisted_rows fs path ++ new
    /\ Date <$> new = exec_dates market_data (target_days market_data)
    /\ records (trader st') = persisted_rows (files st') path.
Proof.
  intros Hdisk Hpr Hrun path market_data. subst path market_data.
  unfold run_ticker in Hrun.
  destruct (init_synced fs ticker 100000) as (Hfp & Hcap & Hrec).
  destruct (TradeManager_init fs ticker 100000) as [tm loaded].
  cbn [fst] in Hfp, Hcap, Hrec. rewrite Hfp in Hrec.
  destruct (get_market_data env ticker) as [[|bar bars] fetched] eqn:Hm;
    cbn [fst] in Hpr |- *.
  - injection Hrun as <-. cbn [files trader].
    exists []. rewrite app_nil_r.
    split; [reflexivity|]. split; [reflexivity|exact Hrec].
  - destruct (run_days_appends env ticker (bar :: bars)
                (length (target_days (bar :: bars))) Hdisk Hpr
                (target_days (bar :: bars))
                (say (mkRun tm fs (out ++ loaded ++ fetched))
                   [DaysToSimulate ticker (length (target_days (bar :: bars)))])
                0%nat st')
      as (Hfp' & Hsync & new & Hr & Hd).
    + cbn [trader say]. rewrite Hcap. discriminate.
    + unfold synced. cbn [trader files say]. rewrite Hfp. symmetry. exact Hrec.
    + exact Hrun.
    + cbn [trader say] in Hfp', Hr. unfold synced in Hsync.
      rewrite Hfp', Hfp in Hsync.
      exists new. split; [|split].
      * rewrite Hsync, Hr, Hrec. reflexivity.
      * exact Hd.
      * symmetry. exact Hsync.
Qed.

(** C1, as amended.  The day loop has no test for dates already recorded.
    A run that ends without exception leaves on disk the ledger it found
    followed by one new record for every day it executed; run again from
    that ledger over the same price table, it keeps those rows as a
    prefix and appends one more record for each of the same dates. *)
Theorem rerun_appends_every_day_again env1 env2 fs0 out1 out2 ticker st1 st2 :
  (forall path rows, disk env1 path rows = true) ->
  (forall path rows, disk env2 path rows = true) ->
  yf_download env2 ticker = yf_download env1 ticker ->
  market_priced (get_market_data env1 ticker).1 ->
  run_ticker env1 fs0 out1 ticker = (st1, None) ->
  run_ticker env2 (files st1) out2 ticker = (st2, None) ->
  let path := ("results/" +:+ ticker +:+ "_backtest_results.xlsx")%string in
  let market_data := (get_market_data env1 ticker).1 in
  let dates := exec_dates market_data (target_days market_data) in
  exists new1 new2,
    persisted_rows (files st1) path = persisted_rows fs0 path ++ new1
    /\ persisted_rows (files st2) path = persisted_rows (files st1) path ++ new2
    /\ Date <$> new1 = dates
    /\ Date <$> new2 = dates
    /\ records (trader st2) = persisted_rows (files st2) path.
Proof.
  intros Hd1 Hd2 Hm Hpr Hrun1 Hrun2 path market_data dates.
  subst path market_data dates.
  destruct (run_ticker_appends env1 fs0 out1 ticker st1 Hd1 Hpr Hrun1)
    as (new1 & Hrows1 & Hdates1 & _).
  assert (Hm' : get_market_data env2 ticker = get_market_data env1 ticker)
    by (unfold get_market_data; rewrite Hm; reflexivity).
  assert (Hpr2 : market_priced (get_market_data env2 ticker).1)
    by (rewrite Hm'; exact Hpr).
  destruct (run_ticker_appends env2 (files st1) out2 ticker st2 Hd2 Hpr2 Hrun2)
    as (new2 & Hrows2 & Hdates2 & Hmem).
  rewrite Hm' in Hdates2.
  exists new1, new2. repeat split; assumption.
Qed.

Lemma rerun_appends_every_day_again_witness :
  market_priced sample_market
  /\ first_run.2 = None /\ second_run.2 = None
  /\ exists new2,
       persisted_rows (files second_run.1) "results/AMZN_backtest_results.xlsx"
       = persisted_rows (files first_run.1) "results/AMZN_backtest_results.xlsx"
         ++ new2
       /\ Date <$> new2 = ["2025-01-03"; "2025-01-06"].
Proof.
  assert (Hpr : market_priced
                  (get_market_data (sample_env ∅ true) "AMZN").1) by reflexivity.
  assert (H1 : run_ticker (sample_env ∅ true) ∅ [] "AMZN"
               = (first_run.1, None)) by (vm_compute; reflexivity).
  assert (H2 : run_ticker (sample_env sample_reports true) (files first_run.1)
                 [] "AMZN" = (second_run.1, None)) by (vm_compute; reflexivity).
  split; [reflexivity|]. split; [vm_compute; reflexivity|].
  split; [vm_compute; reflexivity|].
  pose (env1 := sample_env ∅ true).
  pose (fs0 := ∅ : gmap string XlsxFile).
  destruct (rerun_appends_every_day_again
              env1 (sample_env sample_reports true) fs0 [] []
              "AMZN" first_run.1 second_run.1
              (fun _ _ => eq_refl) (fun _ _ => eq_refl) eq_refl Hpr H1 H2)
    as (new1 & new2 & _ & Hrows2 & _ & Hdates2 & _).
  exists new2. split; [exact Hrows2|exact Hdates2].
Defined.

(** C1, as stated, fails: the first run records the sessions of
    2025-01-03 and 2025-01-06; the second run, started from that ledger
    and finding the reports of the first, records both again. *)
Lemma rerun_duplicates_counterexample :
  first_run.2 = None
  /\ Date <$> persisted_rows (files first_run.1)
                "results/AMZN_backtest_results.xlsx"
     = ["2025-01-03"; "2025-01-06"]
  /\ second_run.2 = None
  /\ Date <$> persisted_rows (files second_run.1)
                "results/AMZN_backtest_results.xlsx"
     = ["2025-01-03"; "2025-01-06"; "2025-01-03"; "2025-01-06"]
  /\ persisted_rows (files second_run.1) "results/AMZN_backtest_results.xlsx"
     <> persisted_rows (files first_run.1) "results/AMZN_backtest_results.xlsx".
Proof.
  split; [vm_compute; reflexivity|].
  split; [vm_compute; reflexivity|].
  split; [vm_compute; reflexivity|].
  split; [vm_compute; reflexivity|].
  intros E. apply (f_equal length) in E. vm_compute in E. discriminate.
Qed.

(** * Further properties of the trade executor *)

(** [execute_trade] in full: the one early exit is a BUY with cash at a
    zero price; after the position is settled a zero initial capital
    raises; otherwise the record is appended and saved. *)
Lemma execute_trade_cases disk self fs date signal open_price :
  execute_trade disk self fs date signal open_price =
    if String.eqb signal "BUY" && Qlt_bool 0 (capital self)
       && Qeq_bool open_price 0
    then (self, fs, Raise ZeroDivisionError)
    else
      let self1 := (settle self signal open_price).1 in
      let '(action, shares_delta, amount) := (settle self signal open_price).2 in
      if Qeq_bool (initial_capital self) 0
      then (self1, fs, Raise ZeroDivisionError)
      else
        let record :=
          record_of self1 date signal action open_price shares_delta amount in
        let self2 := set_records self1 (records self ++ [record]) in
        if disk (file_path self) (records self ++ [record])
        then (self2, <[file_path self := Sheet (records self ++ [record])]> fs,
              Ok record)
        else (self2, fs, Raise OSError).
Proof.
  unfold execute_trade, settle, save_to_excel, record_of.
  destruct (String.eqb signal "BUY" && Qlt_bool 0 (capital self)).
  - destruct (Qeq_bool open_price 0); [reflexivity|]. cbn [andb].
    destruct (0 <? py_int (capital self * 1 / open_price));
      cbn [fst snd initial_capital set_position set_records capital shares
           records file_path ticker];
      destruct (Qeq_bool (initial_capital self) 0); try reflexivity;
      match goal with |- context [if disk ?p ?r then _ else _] =>
        destruct (disk p r) end; reflexivity.
  - cbn [andb].
    destruct (String.eqb signal "SELL" && (0 <? shares self));
      cbn [fst snd initial_capital set_position set_records capital shares
           records file_path ticker];
      destruct (Qeq_bool (initial_capital self) 0); try reflexivity;
      match goal with |- context [if disk ?p ?r then _ else _] =>
        destruct (disk p r) end; reflexivity.
Qed.
















(** X5.  [execute_trade] only ever appends: ticker, file path and
    initial capital are never touched, and the records after the call are
    the records before it, followed by at most one new record, which
    carries the date and the signal of the call.  When no record is
    added the call has raised and the files are as before; the new
    record is the one returned unless the save raised. *)
Theorem execute_trade_append_only disk self fs date signal open_price :
  let out := execute_trade disk self fs date signal open_price in
  ticker out.1.1 = ticker self
  /\ file_path out.1.1 = file_path self
  /\ initial_capital out.1.1 = initial_capital self
  /\ ((records out.1.1 = records self
       /\ out.1.2 = fs /\ out.2 = Raise ZeroDivisionError)
      \/ exists record,
           records out.1.1 = records self ++ [record]
           /\ Date record = date /\ Signal record = signal
           /\ (out.2 = Ok record \/ out.2 = Raise OSError)).
Proof.
  cbv zeta. rewrite execute_trade_cases.
  destruct (String.eqb signal "BUY" && Qlt_bool 0 (capital self)
            && Qeq_bool open_price 0).
  { cbn [fst snd]. split; [reflexivity|]. split; [reflexivity|].
    split; [reflexivity|]. left. repeat split; reflexivity. }
  destruct (settle_keeps self signal open_price) as (Hfp & Hic & Hrec & Htk).
  destruct (settle self signal open_price) as [self1 [[action delta] amount]].
  cbn [fst snd] in *.
  destruct (Qeq_bool (initial_capital self) 0).
  { cbn [fst snd]. (split; [exact Htk|]); (split; [exact Hfp|]);
      (split; [exact Hic|]).
    left. split; [exact Hrec|]. split; reflexivity. }
  match goal with |- context [if disk ?p ?r then _ else _] =>
    destruct (disk p r) end; cbn [fst snd];
    (split; [exact Htk|]); (split; [exact Hfp|]); (split; [exact Hic|]);
    right; eexists; (split; [reflexivity|]);
    (split; [reflexivity|]); (split; [reflexivity|]); [left|right]; reflexivity.
Qed.

(** X6.  [execute_trade] writes nothing but its own ledger file, and
    that only when it returns: every other path keeps its content; when
    the call returns a record the ledger file holds exactly the records
    of the object; when it raises, the files are all as before. *)
Theorem execute_trade_files_frame disk self fs date signal open_price :
  let out := execute_trade disk self fs date signal open_price in
  (forall path, path <> file_path self -> out.1.2 !! path = fs !! path)
  /\ (forall record, out.2 = Ok record ->
      out.1.2 !! file_path self = Some (Sheet (records out.1.1))
      /\ last (records out.1.1) = Some record)
  /\ (forall e, out.2 = Raise e -> out.1.2 = fs).
Proof.
  cbv zeta. rewrite execute_trade_cases.
  destruct (String.eqb signal "BUY" && Qlt_bool 0 (capital self)
            && Qeq_bool open_price 0).
  { cbn [fst snd]. split; [|split]; [reflexivity|discriminate|reflexivity]. }
  destruct (settle self signal open_price) as [self1 [[action delta] amount]].
  cbn [fst snd].
  destruct (Qeq_bool (initial_capital self) 0).
  { cbn [fst snd]. split; [|split]; [reflexivity|discriminate|reflexivity]. }
  match goal with |- context [if disk ?p ?r then _ else _] =>
    destruct (disk p r) end; cbn [fst snd records set_records].
  - split; [|split].
    + intros path Hne. apply lookup_insert_ne. congruence.
    + intros record [= <-]. split; [apply lookup_insert_eq|apply last_snoc].
    + discriminate.
  - split; [|split]; [reflexivity|discriminate|reflexivity].
Qed.

(** X7.  A BUY with cash at a zero price fails in the division before
    anything is changed: the call raises and object and files are the
    ones it was given. *)
Theorem buy_at_zero_price_changes_nothing disk self fs date open_price :
  (0 < capital self)%Q -> (open_price == 0)%Q ->
  exists e,
    execute_trade disk self fs date "BUY" open_price = (self, fs, Raise e).
Proof.
  intros Hc Hp. exists ZeroDivisionError. rewrite execute_trade_cases.
  apply Qlt_bool_iff in Hc. apply Qeq_bool_iff in Hp.
  change (String.eqb "BUY" "BUY") with true. rewrite Hc, Hp. reflexivity.
Qed.

Lemma buy_at_zero_price_changes_nothing_witness :
  (0 < 1000)%Q /\ (0 == 0)%Q
  /\ records (execute_trade (fun _ _ => true)
                (TradeManager_init ∅ "AMZN" 1000).1 ∅
                "2025-01-03" "BUY" 0).1.1 = [].
Proof.
  assert (Hc : (0 < capital (TradeManager_init ∅ "AMZN" 1000).1)%Q)
    by (vm_compute; reflexivity).
  split; [reflexivity|]. split; [reflexivity|].
  destruct (buy_at_zero_price_changes_nothing (fun _ _ => true)
              (TradeManager_init ∅ "AMZN" 1000).1 ∅ "2025-01-03" 0
              Hc (Qeq_refl 0)) as [e He].
  rewrite He. reflexivity.
Defined.

(** X8.  The books of one record.  A record added by [execute_trade]
    carries the ticker, date, signal and price of the call, and its share
    count is the count before plus its delta.  Its action is BUY only on
    a BUY signal, with a positive delta, the amount being delta times
    price and taken from cash; SELL only on a SELL signal, with delta
    minus the whole holding, the amount being holding times price and
    added to cash; otherwise HOLD with zero delta, zero amount and cash
    as before. *)
Theorem record_accounting disk self fs date signal open_price record :
  records (execute_trade disk self fs date signal open_price).1.1
  = records self ++ [record] ->
  (Ticker record = ticker self /\ Date record = date
   /\ Signal record = signal /\ Open_Price record = open_price)
  /\ Shares record = shares self + Shares_Delta record
  /\ ((Action record = "BUY" /\ signal = "BUY"
       /\ 0 < Shares_Delta record
       /\ Transaction_Amount record
          = (inject_Z (Shares_Delta record) * open_price)%Q
       /\ Cash record = (capital self - Transaction_Amount record)%Q)
      \/ (Action record = "SELL" /\ signal = "SELL"
          /\ Shares_Delta record = - shares self /\ Shares_Delta record < 0
          /\ Transaction_Amount record
             = (inject_Z (shares self) * open_price)%Q
          /\ Cash record = (capital self + Transaction_Amount record)%Q)
      \/ (Action record = "HOLD" /\ Shares_Delta record = 0
          /\ Transaction_Amount record = 0%Q
          /\ Cash record = capital self)).
Proof.
  assert (Hnil : forall (l : list TradeRecord) r, l = l ++ [r] -> False).
  { intros l r E. apply (f_equal length) in E.
    rewrite length_app in E. simpl in E. lia. }
  rewrite execute_trade_cases.
  destruct (String.eqb signal "BUY" && Qlt_bool 0 (capital self)
            && Qeq_bool open_price 0).
  { cbn [fst]. intros E. destruct (Hnil _ _ E). }
  destruct (settle_keeps self signal open_price) as (_ & _ & Hrec & Htk).
  unfold settle in *.
  destruct (String.eqb signal "BUY" && Qlt_bool 0 (capital self)) eqn:Hb.
  - apply andb_true_iff in Hb as [Hb _]. apply String.eqb_eq in Hb.
    destruct (0 <? py_int (capital self * 1 / open_price)) eqn:Hpos;
      cbn [fst snd] in *;
      destruct (Qeq_bool (initial_capital self) 0); cbn [fst];
      try (intros E; exfalso; exact (Hnil (records self) _ E));
      match goal with |- context [if disk ?p ?r then _ else _] =>
        destruct (disk p r) end; cbn [fst records set_records];
      intros E; apply app_inv_head in E; injection E as <-;
      unfold record_of;
      cbn [Ticker Date Signal Open_Price Shares Shares_Delta Action
           Transaction_Amount Cash capital shares ticker set_position].
    1,2: split; [repeat split; reflexivity|]; split; [reflexivity|];
      left; apply Z.ltb_lt in Hpos; repeat split; assumption || reflexivity.
    1,2: split; [repeat split; reflexivity|]; split; [lia|];
      right; right; repeat split; reflexivity.
  - destruct (String.eqb signal "SELL" && (0 <? shares self)) eqn:Hs.
    + apply andb_true_iff in Hs as [Hs Hpos]. apply String.eqb_eq in Hs.
      apply Z.ltb_lt in Hpos. cbn [fst snd] in *.
      destruct (Qeq_bool (initial_capital self) 0); cbn [fst];
        try (intros E; exfalso; exact (Hnil (records self) _ E));
        match goal with |- context [if disk ?p ?r then _ else _] =>
          destruct (disk p r) end; cbn [fst records set_records];
        intros E; apply app_inv_head in E; injection E as <-;
        unfold record_of;
        cbn [Ticker Date Signal Open_Price Shares Shares_Delta Action
             Transaction_Amount Cash capital shares ticker set_position];
        (split; [repeat split; reflexivity|]); (split; [lia|]);
        right; left; repeat split; try assumption; try reflexivity; lia.
    + cbn [fst snd] in *.
      destruct (Qeq_bool (initial_capital self) 0); cbn [fst];
        try (intros E; exfalso; exact (Hnil (records self) _ E));
        match goal with |- context [if disk ?p ?r then _ else _] =>
          destruct (disk p r) end; cbn [fst records set_records];
        intros E; apply app_inv_head in E; injection E as <-;
        unfold record_of;
        cbn [Ticker Date Signal Open_Price Shares Shares_Delta Action
             Transaction_Amount Cash capital shares ticker set_position];
        (split; [repeat split; reflexivity|]); (split; [lia|]);
        right; right; repeat split; reflexivity.
Qed.

Lemma record_accounting_witness :
  exists record,
    records (execute_trade (fun _ _ => true)
               (TradeManager_init ∅ "AMZN" 1000).1 ∅
               "2025-01-03" "BUY" 300).1.1
    = records (TradeManager_init ∅ "AMZN" 1000).1 ++ [record]
    /\ Shares record = 0 + Shares_Delta record.
Proof.
  eexists. split; [vm_compute; reflexivity|].
  match goal with |- Shares ?r = _ =>
    exact (proj1 (proj2 (record_accounting (fun _ _ => true)
                           (TradeManager_init ∅ "AMZN" 1000).1 ∅
                           "2025-01-03" "BUY" 300 r eq_refl)))
  end.
Defined.

(** * Further properties of the ledger store *)



(** X10.  A ledger file that holds a table without rows is treated like
    no file at all: the constructor returns the initial state and prints
    nothing. *)
Theorem init_without_rows fs ticker ic :
  fs !! ("results/" +:+ ticker +:+ "_backtest_results.xlsx") = Some (Sheet []) ->
  TradeManager_init fs ticker ic = TradeManager_init ∅ ticker ic.
Proof.
  intros Hfile. rewrite init_fresh.
  unfold TradeManager_init, load_state. cbn [file_path].
  rewrite Hfile. reflexivity.
Qed.

Lemma init_without_rows_witness :
  TradeManager_init {[ "results/AMZN_backtest_results.xlsx" := Sheet [] ]}
    "AMZN" 100000
  = TradeManager_init ∅ "AMZN" 100000.
Proof.
  apply init_without_rows. apply lookup_singleton_eq.
Defined.

(** * Further properties of the day loop *)

(** The two ways a call of [execute_trade] can end, as far as object and
    files go: nothing recorded and nothing written, or one conserved
    record appended and the ledger file either rewritten with all the
    records or, the disk refusing, left alone. *)
Lemma execute_trade_outcomes disk self fs date signal open_price :
  let out := execute_trade disk self fs date signal open_price in
  (ticker out.1.1 = ticker self
   /\ file_path out.1.1 = file_path self
   /\ initial_capital out.1.1 = initial_capital self)
  /\ ((records out.1.1 = records self /\ out.1.2 = fs)
      \/ exists record,
           records out.1.1 = records self ++ [record]
           /\ conserved record
           /\ ((out.1.2 = fs
                /\ disk (file_path self) (records self ++ [record]) = false)
               \/ out.1.2
                  = <[file_path self := Sheet (records self ++ [record])]> fs)).
Proof.
  cbv zeta. rewrite execute_trade_cases.
  destruct (String.eqb signal "BUY" && Qlt_bool 0 (capital self)
            && Qeq_bool open_price 0).
  { cbn [fst snd]. split; [repeat split; reflexivity|].
    left. split; reflexivity. }
  destruct (settle_keeps self signal open_price) as (Hfp & Hic & Hrec & Htk).
  destruct (settle self signal open_price) as [self1 [[action delta] amount]].
  cbn [fst snd] in *.
  destruct (Qeq_bool (initial_capital self) 0).
  { cbn [fst snd]. split; [repeat split; assumption|].
    left. split; [exact Hrec|reflexivity]. }
  destruct (disk (file_path self)
              (records self
               ++ [record_of self1 date signal action open_price delta amount]))
    eqn:Hdisk; cbn [fst snd records set_records ticker file_path
                    initial_capital];
    (split; [repeat split; assumption|]); right; eexists;
    (split; [reflexivity|]); (split; [reflexivity|]).
  - right. reflexivity.
  - left. split; [reflexivity|exact Hdisk].
Qed.

(** The ways one iteration can end: without a trade, object and files
    untouched (and if with an exception, then [AttributeError] on an
    unreadable report); or with one call of [execute_trade] at the date
    and closing price of the following bar. *)
Lemma loop_body_outcomes env ticker market_data total st idx d :
  let out := loop_body env ticker market_data total st idx d in
  (trader out.1 = trader st /\ files out.1 = files st
   /\ (out.2 = Continue \/ out.2 = Break
       \/ (out.2 = Propagate AttributeError
           /\ reports env !! report_path_of ticker d = Some Unparsable)))
  \/ exists bar p signal,
       bar ∈ market_data /\ bar_close bar = Some p
       /\ reports env !! report_path_of ticker d <> Some Unparsable
       /\ trader out.1
          = (execute_trade (disk env) (trader st) (files st)
               (bar_date bar) signal p).1.1
       /\ files out.1
          = (execute_trade (disk env) (trader st) (files st)
               (bar_date bar) signal p).1.2
       /\ out.2 = Continue.
Proof.
  cbv zeta.
  destruct (get_loc d market_data) as [loc|] eqn:Hloc.
  2: { left. unfold loop_body. rewrite Hloc. cbn [fst snd say trader files].
       split; [reflexivity|]. split; [reflexivity|]. left. reflexivity. }
  destruct (market_data !! S loc) as [bar|] eqn:Hbar.
  2: { left. unfold loop_body. rewrite Hloc. cbv zeta. rewrite Hbar.
       cbn [fst snd say trader files].
       split; [reflexivity|]. split; [reflexivity|]. right. left. reflexivity. }
  destruct (bar_close bar) as [p|] eqn:Hclose.
  2: { left. unfold loop_body. rewrite Hloc. cbv zeta. rewrite Hbar, Hclose.
       cbn [fst snd say trader files].
       split; [reflexivity|]. split; [reflexivity|]. left. reflexivity. }
  destruct (reports env !! report_path_of ticker d) as [[s|]|] eqn:Hrep.
  2: { left. unfold loop_body. rewrite Hloc. cbv zeta.
       rewrite Hbar, Hclose, Hrep. cbn [fst snd say trader files].
       split; [reflexivity|]. split; [reflexivity|].
       right. right. split; reflexivity. }
  all: right;
    destruct (loop_body_executes env ticker market_data total st idx d
                loc bar p Hloc Hbar Hclose) as (signal & st0 & _ & _ & Hb);
    [rewrite Hrep; discriminate|];
    exists bar, p, signal; rewrite Hb;
    (split; [exact (list_elem_of_lookup_2 _ _ _ Hbar)|]);
    (split; [exact Hclose|]); (split; [discriminate|]);
    destruct (execute_trade (disk env) (trader st) (files st)
                (bar_date bar) signal p) as [[tm' fs'] [r|e]];
    repeat split; reflexivity.
Qed.

Section RunInvariant.

Variable env : Env.
Variable ticker : string.
Variable market_data : list Bar.
Variable total : nat.

(** A property of object and files that every call of [execute_trade]
    at a closing price of the table keeps. *)
Variable P : TradeManager -> gmap string XlsxFile -> Prop.

Hypothesis P_step :
  forall tm fs bar p signal,
    bar ∈ market_data -> bar_close bar = Some p -> P tm fs ->
    P (execute_trade (disk env) tm fs (bar_date bar) signal p).1.1
      (execute_trade (disk env) tm fs (bar_date bar) signal p).1.2.

Lemma loop_body_keeps st idx d :
  P (trader st) (files st) ->
  P (trader (loop_body env ticker market_data total st idx d).1)
    (files (loop_body env ticker market_data total st idx d).1).
Proof using P_step.
  intros HP.
  destruct (loop_body_outcomes env ticker market_data total st idx d)
    as [(Ht & Hf & _)|(bar & p & signal & Hin & Hclose & _ & Ht & Hf & _)];
    rewrite Ht, Hf.
  - exact HP.
  - apply P_step; assumption.
Qed.

(** The property then holds after the day loop, however it ends. *)
Lemma run_days_keeps days :
  forall st idx,
    P (trader st) (files st) ->
    P (trader (run_days env ticker market_data total st idx days).1)
      (files (run_days env ticker market_data total st idx days).1).
Proof using P_step.
  induction days as [|d rest IH]; intros st idx HP; [exact HP|].
  cbn [run_days].
  pose proof (loop_body_keeps st idx d HP) as H1.
  destruct (loop_body env ticker market_data total st idx d) as [st1 [| |e]];
    cbn [fst] in H1 |- *; [apply IH; exact H1|exact H1|exact H1].
Qed.

End RunInvariant.

(** X11.  Over the whole day loop the ledger in memory is append-only:
    however the loop ends and whatever the collaborators do, ticker, file
    path and initial capital are unchanged and the records at the end are
    the records at the start followed by at most one new record per
    day. *)
Theorem run_days_append_only env tkr market_data total days :
  forall st idx,
    let st' := (run_days env tkr market_data total st idx days).1 in
    ticker (trader st') = ticker (trader st)
    /\ file_path (trader st') = file_path (trader st)
    /\ initial_capital (trader st') = initial_capital (trader st)
    /\ exists new,
         records (trader st') = records (trader st) ++ new
         /\ (length new <= length days)%nat.
Proof.
  induction days as [|d rest IH]; intros st idx.
  - cbn. split; [reflexivity|]. split; [reflexivity|]. split; [reflexivity|].
    exists []. rewrite app_nil_r. split; [reflexivity|cbn; lia].
  - cbn zeta. cbn [run_days].
    assert (Hstep :
      let st1 := (loop_body env tkr market_data total st idx d).1 in
      ticker (trader st1) = ticker (trader st)
      /\ file_path (trader st1) = file_path (trader st)
      /\ initial_capital (trader st1) = initial_capital (trader st)
      /\ exists new, records (trader st1) = records (trader st) ++ new
                     /\ (length new <= 1)%nat).
    { cbv zeta.
      destruct (loop_body_outcomes env tkr market_data total st idx d)
        as [(Ht & _)|(bar & p & signal & _ & _ & _ & Ht & _)]; rewrite Ht.
      - split; [reflexivity|]. split; [reflexivity|]. split; [reflexivity|].
        exists []. rewrite app_nil_r. split; [reflexivity|cbn; lia].
      - destruct (execute_trade_outcomes (disk env) (trader st) (files st)
                    (bar_date bar) signal p)
          as ((Htk & Hfp & Hic) & [[Hr _]|(r & Hr & _)]);
          (split; [exact Htk|]); (split; [exact Hfp|]); (split; [exact Hic|]).
        + exists []. rewrite app_nil_r. split; [exact Hr|cbn; lia].
        + exists [r]. split; [exact Hr|cbn; lia]. }
    cbv zeta in Hstep.
    destruct (loop_body env tkr market_data total st idx d) as [st1 fl].
    cbn [fst] in Hstep.
    destruct Hstep as (Htk & Hfp & Hic & new1 & Hr1 & Hlen1).
    destruct fl as [| |e]; cbn [fst].
    + destruct (IH st1 (S idx)) as (Htk2 & Hfp2 & Hic2 & new2 & Hr2 & Hlen2).
      split; [congruence|]. split; [congruence|]. split; [congruence|].
      exists (new1 ++ new2). split.
      * rewrite Hr2, Hr1, app_assoc. reflexivity.
      * rewrite length_app. cbn [length]. lia.
    + split; [exact Htk|]. split; [exact Hfp|]. split; [exact Hic|].
      exists new1. split; [exact Hr1|cbn [length]; lia].
    + split; [exact Htk|]. split; [exact Hfp|]. split; [exact Hic|].
      exists new1. split; [exact Hr1|cbn [length]; lia].
Qed.

(** The day loop writes to no file but the ledger of its trader. *)
Lemma run_days_other_paths env tkr market_data total days st idx path :
  path <> file_path (trader st) ->
  files (run_days env tkr market_data total st idx days).1 !! path
  = files st !! path.
Proof.
  intros Hne.
  pose proof (run_days_keeps env tkr market_data total
    (fun tm fs => file_path tm = file_path (trader st)
                  /\ fs !! path = files st !! path)) as Hkeep.
  apply Hkeep; [|split; reflexivity].
  intros tm fs bar p signal _ _ [Hfp Hsame].
  destruct (execute_trade_outcomes (disk env) tm fs (bar_date bar) signal p)
    as ((_ & Hfp' & _) & [[_ Hfs]|(r & _ & _ & [[Hfs _]|Hfs])]);
    (split; [congruence|]); rewrite Hfs; try exact Hsame.
  rewrite lookup_insert_ne; [exact Hsame|congruence].
Qed.

(** X12.  The program writes to no file but the ledgers of its tickers:
    a path that is not [results/<ticker>_backtest_results.xlsx] for one
    of the tickers holds after [main] what it held before, however the
    run ends. *)
Theorem main_writes_only_ledgers env tickers path :
  (forall tkr, tkr ∈ tickers ->
               path <> "results/" +:+ tkr +:+ "_backtest_results.xlsx") ->
  forall fs out,
    (run_tickers env fs out tickers).1.1 !! path = fs !! path.
Proof.
  induction tickers as [|tkr rest IH]; intros Hne fs out; [reflexivity|].
  assert (Hone : files (run_ticker env fs out tkr).1 !! path = fs !! path).
  { unfold run_ticker.
    destruct (init_synced fs tkr 100000) as (Hfp & _ & _).
    destruct (TradeManager_init fs tkr 100000) as [tm loaded].
    cbn [fst] in Hfp.
    destruct (get_market_data env tkr) as [[|bar bars] fetched];
      [reflexivity|].
    rewrite run_days_other_paths; [reflexivity|].
    cbn [say trader]. rewrite Hfp. apply Hne, list_elem_of_here. }
  cbn [run_tickers].
  destruct (run_ticker env fs out tkr) as [st [e|]]; cbn [fst] in Hone |- *.
  - exact Hone.
  - rewrite IH; [exact Hone|].
    intros t Hin. apply Hne, list_elem_of_further. exact Hin.
Qed.

Lemma main_writes_only_ledgers_witness :
  (main (sample_env ∅ true) ∅).1.1 !! "results/NVDA_backtest_results.xlsx"
  = None.
Proof.
  pose (env := sample_env ∅ true).
  pose (fs0 := ∅ : gmap string XlsxFile).
  change ((run_tickers env fs0 [Banner] TICKERS).1.1
            !! "results/NVDA_backtest_results.xlsx" = fs0 !! "results/NVDA_backtest_results.xlsx").
  apply main_writes_only_ledgers.
  intros tkr Hin.
  unfold TICKERS in Hin.
  apply elem_of_cons in Hin as [->|Hin]; [discriminate|].
  apply elem_of_cons in Hin as [->|Hin]; [discriminate|].
  apply elem_of_nil in Hin. contradiction.
Defined.

(** X13.  Conservation holds for the whole ledger: if every record the
    trader starts with has [Total_Value = Cash + Shares * Open_Price],
    so has every record it holds when the day loop ends. *)
Theorem run_days_conserved env tkr market_data total days st idx :
  Forall conserved (records (trader st)) ->
  Forall conserved
    (records (trader (run_days env tkr market_data total st idx days).1)).
Proof.
  intros H0.
  apply (run_days_keeps env tkr market_data total
           (fun tm _ => Forall conserved (records tm))); [|exact H0].
  intros tm fs bar p signal _ _ Hall.
  destruct (execute_trade_outcomes (disk env) tm fs (bar_date bar) signal p)
    as (_ & [[Hr _]|(r & Hr & Hcons & _)]); rewrite Hr.
  - exact Hall.
  - apply Forall_app. split; [exact Hall|]. constructor; [exact Hcons|constructor].
Qed.

Lemma run_days_conserved_witness :
  Forall conserved (records (trader sample_start))
  /\ Forall conserved
       (records (trader
          (run_days (sample_env ∅ true) "AMZN" sample_market 3 sample_start 0
             ["2025-01-02"; "2025-01-03"; "2025-01-06"]).1)).
Proof.
  assert (H0 : Forall conserved (records (trader sample_start)))
    by (vm_compute; constructor).
  split; [exact H0|].
  exact (run_days_conserved (sample_env ∅ true) "AMZN" sample_market 3
           ["2025-01-02"; "2025-01-03"; "2025-01-06"] sample_start 0 H0).
Defined.






(** X17.  A failing signal generator does not stop the backtest and does
    not move the portfolio: on a day without report whose generator call
    raises, the failure is printed, a record with signal and action HOLD
    is made for the following session, cash and shares stay as they were,
    and the loop goes on. *)
Theorem generator_failure_becomes_hold env tkr market_data total st idx d
    loc bar p :
  get_loc d market_data = Some loc ->
  market_data !! S loc = Some bar ->
  bar_close bar = Some p ->
  ~ (initial_capital (trader st) == 0)%Q ->
  reports env !! report_path_of tkr d = None ->
  run_analysis_execution env tkr d = None ->
  exists record st',
    loop_body env tkr market_data total st idx d = (st', Continue)
    /\ records (trader st') = records (trader st) ++ [record]
    /\ Date record = bar_date bar
    /\ Signal record = "HOLD" /\ Action record = "HOLD"
    /\ capital (trader st') = capital (trader st)
    /\ shares (trader st') = shares (trader st)
    /\ AIFailed ∈ log st'.
Proof.
  intros Hloc Hbar Hclose Hic Hrep Hgen.
  assert (Hbody :
    loop_body env tkr market_data total st idx d =
    match execute_trade (disk env) (trader st) (files st)
            (bar_date bar) "HOLD" p with
    | (trader', files', Ok record) =>
        (mkRun trader' files'
           (log st ++ [DayHeader tkr d (S idx) total; AIStart; AIFailed;
                       LedgerUpdated (bar_date bar) (Action record)
                         (py_int (Total_Value record))]),
         Continue)
    | (trader', files', Raise e) =>
        (mkRun trader' files'
           (log st ++ [DayHeader tkr d (S idx) total; AIStart; AIFailed;
                       BookkeepingFailed e]),
         Continue)
    end).
  { unfold loop_body. rewrite Hloc. cbv zeta. rewrite Hbar, Hclose, Hrep.
    cbn beta iota. rewrite Hrep, Hgen. unfold say. cbn [trader files log].
    destruct (execute_trade (disk env) (trader st) (files st)
                (bar_date bar) "HOLD" p) as [[tm' fs'] [r|e]];
      repeat rewrite <- app_assoc; reflexivity. }
  rewrite execute_trade_cases in Hbody.
  change (String.eqb "HOLD" "BUY") with false in Hbody. cbn [andb] in Hbody.
  rewrite (settle_hold (trader st) "HOLD" p) in Hbody by discriminate.
  cbn [fst snd] in Hbody.
  rewrite (Qeq_bool_false _ _ Hic) in Hbody.
  set (record := record_of (trader st) (bar_date bar) "HOLD" "HOLD" p 0 0) in *.
  destruct (disk env (file_path (trader st)) (records (trader st) ++ [record]));
    eexists record, _; (split; [exact Hbody|]); cbn [trader log];
    repeat split; try reflexivity;
    rewrite !elem_of_app; right; set_solver.
Qed.

Lemma generator_failure_becomes_hold_witness :
  ~ (100000 == 0)%Q
  /\ exists record,
       records (trader
                  (loop_body
                     (mkEnv (fun _ => Some sample_market) ∅ (fun _ _ => None)
                        (fun _ _ => true))
                     "AMZN" sample_market 3 sample_start 0 "2025-01-02").1)
       = [record]
       /\ Action record = "HOLD".
Proof.
  split; [discriminate|].
  pose (env := mkEnv (fun _ => Some sample_market) ∅ (fun _ _ => None)
                 (fun _ _ => true)).
  assert (Hic : ~ (initial_capital (trader sample_start) == 0)%Q)
    by (vm_compute; discriminate).
  destruct (generator_failure_becomes_hold env "AMZN" sample_market 3
              sample_start 0 "2025-01-02" 0%nat
              (mkBar "2025-01-03" (Some 110%Q)) 110%Q
              eq_refl eq_refl eq_refl Hic eq_refl eq_refl)
    as (record & st' & Hbody & Hr & _ & _ & Ha & _).
  exists record. fold env. rewrite Hbody. split; [exact Hr|exact Ha].
Defined.

(** The record a call adds, if any, carries the signal of the call. *)
Lemma execute_trade_append_only_aux disk self fs date signal open_price :
  let out := execute_trade disk self fs date signal open_price in
  records out.1.1 = records self
  \/ exists record,
       records out.1.1 = records self ++ [record] /\ Signal record = signal.
Proof.
  cbv zeta. rewrite execute_trade_cases.
  destruct (String.eqb signal "BUY" && Qlt_bool 0 (capital self)
            && Qeq_bool open_price 0); [left; reflexivity|].
  destruct (settle_keeps self signal open_price) as (_ & _ & Hrec & _).
  destruct (settle self signal open_price) as [self1 [[action delta] amount]].
  cbn [fst snd] in *.
  destruct (Qeq_bool (initial_capital self) 0); [left; exact Hrec|].
  match goal with |- context [if disk ?p ?r then _ else _] =>
    destruct (disk p r) end; right; eexists; split; reflexivity.
Qed.

(** X18.  A readable report is a cache hit: the signal generator is not
    consulted.  With a report that parses to [s], the iteration is the
    same whatever generator the environment holds, and a record made on
    that day carries the signal [s]. *)
Theorem cached_report_skips_generator env tkr market_data total st idx d s
    generator :
  reports env !! report_path_of tkr d = Some (Decision s) ->
  loop_body (mkEnv (yf_download env) (reports env) generator (disk env))
    tkr market_data total st idx d
  = loop_body env tkr market_data total st idx d
  /\ forall record,
       records (trader (loop_body env tkr market_data total st idx d).1)
       = records (trader st) ++ [record] ->
       Signal record = s.
Proof.
  intros Hrep. split.
  - unfold loop_body. cbn [reports disk run_analysis_execution].
    destruct (get_loc d market_data) as [loc|]; [|reflexivity]. cbv zeta.
    destruct (market_data !! S loc) as [bar|]; [|reflexivity].
    destruct (bar_close bar) as [p|]; [|reflexivity].
    rewrite Hrep. cbn beta iota. rewrite Hrep. reflexivity.
  - intros record Hr.
    assert (Hnil : forall (l : list TradeRecord) r, l = l ++ [r] -> False).
    { intros l r E. apply (f_equal length) in E.
      rewrite length_app in E. simpl in E. lia. }
    revert Hr. unfold loop_body.
    destruct (get_loc d market_data) as [loc|];
      [|cbn [fst say trader]; intros E; destruct (Hnil _ _ E)].
    cbv zeta.
    destruct (market_data !! S loc) as [bar|];
      [|cbn [fst say trader]; intros E; destruct (Hnil _ _ E)].
    destruct (bar_close bar) as [p|];
      [|cbn [fst say trader]; intros E; destruct (Hnil _ _ E)].
    rewrite Hrep. cbn beta iota. rewrite Hrep.
    cbn [trader files say].
    destruct (execute_trade_append_only_aux (disk env) (trader st) (files st)
                (bar_date bar) s p) as [Hsame|(r & Hr & Hsig)];
      destruct (execute_trade (disk env) (trader st) (files st)
                  (bar_date bar) s p) as [[tm' fs'] [r'|e]];
      cbn [fst snd trader] in *; intros E.
    + rewrite Hsame in E. destruct (Hnil _ _ E).
    + rewrite Hsame in E. destruct (Hnil _ _ E).
    + rewrite Hr in E. apply app_inv_head in E. injection E as <-. exact Hsig.
    + rewrite Hr in E. apply app_inv_head in E. injection E as <-. exact Hsig.
Qed.

Lemma cached_report_skips_generator_witness :
  reports (sample_env sample_reports true) !! report_path_of "AMZN" "2025-01-02"
  = Some (Decision "BUY")
  /\ loop_body
       (mkEnv (fun _ => Some sample_market) sample_reports (fun _ _ => None)
          (fun _ _ => true))
       "AMZN" sample_market 3 sample_start 0 "2025-01-02"
     = loop_body (sample_env sample_reports true)
         "AMZN" sample_market 3 sample_start 0 "2025-01-02".
Proof.
  assert (Hrep : reports (sample_env sample_reports true)
                   !! report_path_of "AMZN" "2025-01-02"
                 = Some (Decision "BUY")) by (vm_compute; reflexivity).
  split; [exact Hrep|].
  exact (proj1 (cached_report_skips_generator (sample_env sample_reports true)
                  "AMZN" sample_market 3 sample_start 0 "2025-01-02" "BUY"
                  (fun _ _ => None) Hrep)).
Defined.

(** X19.  A ticker without price data is passed over: when the download
    raises or returns an empty table, the run of that ticker ends without
    exception, writes nothing, trades nothing, and [main] goes on to the
    next ticker with the files as they were. *)
Theorem empty_download_skips_ticker env fs out tkr rest :
  yf_download env tkr = None \/ yf_download env tkr = Some [] ->
  (run_ticker env fs out tkr).2 = None
  /\ files (run_ticker env fs out tkr).1 = fs
  /\ trader (run_ticker env fs out tkr).1 = (TradeManager_init fs tkr 100000).1
  /\ (yf_download env tkr = None ->
      DownloadFailed ∈ log (run_ticker env fs out tkr).1)
  /\ run_tickers env fs out (tkr :: rest)
     = run_tickers env fs (log (run_ticker env fs out tkr).1) rest.
Proof.
  intros Hdl.
  assert (Hrun : exists fetched,
            run_ticker env fs out tkr
            = (mkRun (TradeManager_init fs tkr 100000).1 fs
                 (out ++ (TradeManager_init fs tkr 100000).2 ++ fetched), None)
            /\ (yf_download env tkr = None -> DownloadFailed ∈ fetched)).
  { unfold run_ticker, get_market_data.
    destruct (TradeManager_init fs tkr 100000) as [tm loaded].
    destruct Hdl as [-> | ->]; eexists; (split; [reflexivity|]).
    - intros _. set_solver.
    - discriminate. }
  destruct Hrun as (fetched & Hrun & Hlog).
  cbn [run_tickers]. rewrite Hrun. cbn [fst snd files trader log].
  split; [reflexivity|]. split; [reflexivity|]. split; [reflexivity|].
  split; [|reflexivity].
  intros Hnone. rewrite !elem_of_app. right. right. exact (Hlog Hnone).
Qed.

Lemma empty_download_skips_ticker_witness :
  yf_download (mkEnv (fun _ => None) ∅ (fun _ _ => None) (fun _ _ => true))
    "AMZN" = None
  /\ (run_ticker (mkEnv (fun _ => None) ∅ (fun _ _ => None) (fun _ _ => true))
        ∅ [] "AMZN").2 = None.
Proof.
  pose (env := mkEnv (fun _ => None) ∅ (fun _ _ => None) (fun _ _ => true)).
  pose (fs0 := ∅ : gmap string XlsxFile).
  split; [reflexivity|].
  exact (proj1 (empty_download_skips_ticker env fs0 [] "AMZN" []
                  (or_introl eq_refl))).
Defined.

Lemma get_loc_finds (d : string) (market_data : list Bar) :
  d ∈ (bar_date <$> market_data) ->
  exists loc bar,
    get_loc d market_data = Some loc
    /\ market_data !! loc = Some bar /\ bar_date bar = d.
Proof.
  induction market_data as [|b bars IH]; intros Hin.
  - apply elem_of_nil in Hin. contradiction.
  - cbn [get_loc].
    destruct (String.eqb_spec (bar_date b) d) as [E|E].
    + exists 0%nat, b. repeat split; [exact E].
    + cbn in Hin. apply elem_of_cons in Hin as [Hd|Hin]; [congruence|].
      destruct (IH Hin) as (loc & bar & Hloc & Hbar & Hdate).
      exists (S loc), bar. rewrite Hloc. repeat split; assumption.
Qed.

(** X20.  Every day the loop is given by [main] is a date of the price
    table inside the configured range: it lies between [START_DATE] and
    [END_DATE] and [get_loc] finds a bar with that date.  The test for a
    date missing from the index can therefore never fire there. *)
Theorem target_days_located (market_data : list Bar) (d : string) :
  d ∈ target_days market_data ->
  String.leb START_DATE d = true /\ String.leb d END_DATE = true
  /\ exists loc bar,
       get_loc d market_data = Some loc
       /\ market_data !! loc = Some bar /\ bar_date bar = d.
Proof.
  unfold target_days. intros Hin.
  apply list_elem_of_In, filter_In in Hin as [Hin Hrange].
  apply andb_true_iff in Hrange as [Hlo Hhi].
  split; [exact Hlo|]. split; [exact Hhi|].
  apply get_loc_finds, list_elem_of_In. exact Hin.
Qed.

Lemma target_days_located_witness :
  "2025-01-03" ∈ target_days sample_market
  /\ get_loc "2025-01-03" sample_market = Some 1%nat.
Proof.
  assert (Hin : "2025-01-03" ∈ target_days sample_market)
    by (vm_compute; set_solver).
  split; [exact Hin|].
  destruct (target_days_located sample_market "2025-01-03" Hin)
    as (_ & _ & loc & bar & Hloc & Hbar & Hdate).
  rewrite Hloc. f_equal.
  destruct loc as [|[|[|loc]]]; cbn in Hbar;
    try (injection Hbar as <-; discriminate Hdate);
    [reflexivity|discriminate Hbar].
Defined.

(** * Further properties of the throttle gate *)

(** X21.  The gate waits only when it has to, and then no longer than
    needed: a call entered two seconds or more after the stored instant
    starts the wrapped function at once, and a call entered earlier
    starts it two seconds after the stored instant, plus whatever
    [time.sleep] oversleeps. *)
Theorem wrapper_waits_only_when_needed (c : Call) (st : Throttle) :
  let entered := (clock st + idle c)%Q in
  let started := (wrapper c st).2 in
  ((_last_request_time st + 2 <= entered)%Q -> started = entered)
  /\ ((entered < _last_request_time st + 2)%Q ->
      (started == _last_request_time st + 2 + oversleep c)%Q).
Proof.
  cbv zeta. unfold wrapper. cbn [snd].
  destruct (Qlt_bool 0 (2 - (clock st + idle c - _last_request_time st)))
    eqn:E.
  - apply Qlt_bool_iff in E. split; intros H; [lra|ring].
  - apply Qlt_bool_false in E. split; intros H; [reflexivity|lra].
Qed.

(** One call takes at most two seconds more than the environment takes,
    from a state whose stored instant is not in the future. *)
Lemma wrapper_bounded (c : Call) (st : Throttle) :
  well_timed c -> (_last_request_time st <= clock st)%Q ->
  (clock (wrapper c st).1
   <= clock st + 2 + (idle c + oversleep c + duration c))%Q
  /\ (_last_request_time (wrapper c st).1 <= clock (wrapper c st).1)%Q.
Proof.
  intros (Hi & Ho & Hd) Hlast. unfold wrapper.
  cbn [fst clock _last_request_time].
  destruct (Qlt_bool 0 (2 - (clock st + idle c - _last_request_time st)))
    eqn:E.
  - apply Qlt_bool_iff in E. split; lra.
  - apply Qlt_bool_false in E. split; lra.
Qed.

(** X22.  The gate costs at most two seconds per call: from a state
    whose stored instant is not in the future, N guarded calls end no
    later than [2 * N] seconds plus the time the environment itself takes
    (idling, oversleeping, running the wrapped functions). *)
Theorem throttle_costs_at_most_two_seconds_a_call (cs : list Call) :
  Forall well_timed cs ->
  forall st,
    (_last_request_time st <= clock st)%Q ->
    (clock (guarded_calls cs st).1
     <= clock st + inject_Z (Z.of_nat (length cs)) * 2 + time_taken cs)%Q.
Proof.
  induction 1 as [|c cs Hc Hcs IH]; intros st Hlast.
  - cbn [guarded_calls fst length time_taken fold_right].
    change (inject_Z (Z.of_nat 0)) with 0%Q. lra.
  - cbn [guarded_calls].
    destruct (wrapper_bounded c st Hc Hlast) as [Hb Hlast1].
    destruct (wrapper c st) as [st1 started]. cbn [fst] in Hb, Hlast1.
    specialize (IH st1 Hlast1).
    destruct (guarded_calls cs st1) as [st2 starts]. cbn [fst] in IH |- *.
    cbn [length time_taken fold_right]. fold (time_taken cs).
    rewrite Nat2Z.inj_succ.
    replace (Z.succ (Z.of_nat (length cs))) with (Z.of_nat (length cs) + 1)
      by lia.
    rewrite inject_Z_plus. change (inject_Z 1) with 1%Q. lra.
Qed.

Lemma throttle_costs_at_most_two_seconds_a_call_witness :
  Forall well_timed [mkCall 0 0 0; mkCall 0 0 0; mkCall 0 0 0]
  /\ (0 <= 100)%Q
  /\ (clock (guarded_calls [mkCall 0 0 0; mkCall 0 0 0; mkCall 0 0 0]
               (mkThrottle 100 0)).1
      <= 100 + inject_Z (Z.of_nat 3) * 2
         + time_taken [mkCall 0 0 0; mkCall 0 0 0; mkCall 0 0 0])%Q.
Proof.
  assert (Hcs : Forall well_timed [mkCall 0 0 0; mkCall 0 0 0; mkCall 0 0 0]).
  { repeat (constructor; [repeat split; apply Qle_refl|]). constructor. }
  assert (Hlast : (_last_request_time (mkThrottle 100 0)
                   <= clock (mkThrottle 100 0))%Q) by discriminate.
  split; [exact Hcs|]. split; [discriminate|].
  exact (throttle_costs_at_most_two_seconds_a_call _ Hcs _ Hlast).
Defined.

(** * The situation memory *)

Lemma situation_id_inj (n m : nat) : situation_id n = situation_id m -> n = m.
Proof.
  unfold situation_id. intros E.
  apply (inj (String.append "id_")) in E.
  exact (inj pretty _ _ E).
Qed.

Lemma situation_ids_distinct (start n : nat) :
  NoDup (situation_id <$> seq start n).
Proof.
  apply NoDup_fmap_2.
  - intros x y. apply situation_id_inj.
  - apply NoDup_seq.
Qed.

(** What the loop of [add_situations] prepares when no embedding call
    raises: one entry per pair, in order, numbered from [offset + i]. *)
Lemma prepare_entries_spec embeddings_create offset items :
  forall i new,
    prepare_entries embeddings_create offset i items = Some new ->
    entry_id <$> new = situation_id <$> seq (offset + i) (length items)
    /\ entry_document <$> new = fst <$> items
    /\ entry_recommendation <$> new = snd <$> items.
Proof.
  induction items as [|[situation recommendation] rest IH]; intros i new H.
  - cbn in H. injection H as <-. repeat split; reflexivity.
  - cbn [prepare_entries] in H.
    destruct (get_embedding embeddings_create situation) as [v|]; [|discriminate].
    destruct (prepare_entries embeddings_create offset (S i) rest)
      as [entries|] eqn:Hrest; [|discriminate].
    injection H as <-.
    destruct (IH (S i) entries Hrest) as (Hid & Hdoc & Hrec).
    cbn [length seq fmap list_fmap entry_id entry_document
         entry_recommendation fst snd].
    change (list_fmap _ _ ?f ?l) with (f <$> l) in *.
    rewrite Hid, Hdoc, Hrec.
    replace (offset + S i)%nat with (S (offset + i)) by lia.
    repeat split; reflexivity.
Qed.

Lemma prepare_entries_succeeds embeddings_create offset items :
  Forall (fun item => is_Some (get_embedding embeddings_create item.1)) items ->
  forall i, is_Some (prepare_entries embeddings_create offset i items).
Proof.
  induction 1 as [|[situation recommendation] rest [v Hv] _ IH]; intros i.
  - cbn. eauto.
  - cbn [prepare_entries]. cbn [fst] in Hv. rewrite Hv.
    destruct (IH (S i)) as [entries ->]. eauto.
Qed.

Lemma prepare_entries_fails embeddings_create offset items :
  Exists (fun item => get_embedding embeddings_create item.1 = None) items ->
  forall i, prepare_entries embeddings_create offset i items = None.
Proof.
  induction 1 as [[situation recommendation] rest Hnone
                 |[situation recommendation] rest _ IH]; intros i;
    cbn [prepare_entries].
  - cbn [fst] in Hnone. rewrite Hnone. reflexivity.
  - destruct (get_embedding embeddings_create situation); [|reflexivity].
    rewrite IH. reflexivity.
Qed.

(** X23.  Ids never clash.  On a collection whose ids are [id_0],
    [id_1], ... in order (as [add_situations] itself leaves it, starting
    from the empty one), when every embedding call succeeds,
    [add_situations] appends one entry per pair, in order, with the
    pair's situation as document and its advice as recommendation; the
    ids go on counting where the collection stopped, so all ids are
    distinct and the store's treatment of ids already taken never comes
    into play. *)
Theorem add_situations_appends_numbered on_clash embeddings_create
    collection items :
  numbered collection ->
  Forall (fun item => is_Some (get_embedding embeddings_create item.1)) items ->
  exists new,
    add_situations on_clash embeddings_create collection items
    = (collection ++ new, Returned)
    /\ entry_document <$> new = fst <$> items
    /\ entry_recommendation <$> new = snd <$> items
    /\ numbered (collection ++ new)
    /\ NoDup (entry_id <$> (collection ++ new)).
Proof.
  unfold numbered. intros Hnum Hemb.
  destruct (prepare_entries_succeeds embeddings_create (length collection)
              items Hemb 0%nat) as [new Hnew].
  destruct (prepare_entries_spec embeddings_create (length collection) items
              0%nat new Hnew) as (Hid & Hdoc & Hrec).
  rewrite Nat.add_0_r in Hid.
  assert (Hlen : length new = length items).
  { rewrite <- (length_fmap entry_document new), Hdoc, length_fmap.
    reflexivity. }
  assert (Hall : entry_id <$> (collection ++ new)
                 = situation_id <$> seq 0 (length (collection ++ new))).
  { rewrite fmap_app, Hnum, Hid, length_app, Hlen, seq_app, fmap_app.
    reflexivity. }
  assert (Hnd : NoDup (entry_id <$> (collection ++ new))).
  { rewrite Hall. apply situation_ids_distinct. }
  exists new. split.
  - unfold add_situations. rewrite Hnew.
    destruct new as [|e new']; [rewrite app_nil_r; reflexivity|].
    unfold collection_add. rewrite decide_True by exact Hnd. reflexivity.
  - repeat split; assumption.
Qed.

Lemma add_situations_appends_numbered_witness :
  numbered []
  /\ exists new,
       add_situations (fun c _ => (c, Raised)) (fun _ => Some [1%Q]) []
         [("rates rise"%string, "shorten duration"%string);
          ("tech sells off"%string, "reduce growth"%string)]
       = (new, Returned)
       /\ entry_id <$> new = ["id_0"; "id_1"].
Proof.
  assert (Hnum : numbered []) by reflexivity.
  split; [exact Hnum|].
  destruct (add_situations_appends_numbered (fun c _ => (c, Raised))
              (fun _ => Some [1%Q]) []
              [("rates rise"%string, "shorten duration"%string);
               ("tech sells off"%string, "reduce growth"%string)] Hnum)
    as (new & Hadd & _ & _ & Hnum' & _).
  { repeat constructor; cbn; eauto. }
  exists new. split; [exact Hadd|].
  unfold numbered in Hnum'. cbn [app] in Hnum'. rewrite Hnum'.
  assert (Hlen : length new = 2%nat).
  { apply (f_equal (fun x => length x.1)) in Hadd. cbn in Hadd.
    symmetry. exact Hadd. }
  rewrite Hlen. reflexivity.
Defined.

(** X24.  [add_situations] is all or nothing with respect to the
    embedding calls: when one of them raises, the exception leaves the
    method before the store is touched and the collection is what it
    was; and on an empty list the store is not called at all. *)
Theorem add_situations_all_or_nothing on_clash embeddings_create
    collection items :
  (Exists (fun item => get_embedding embeddings_create item.1 = None) items ->
   add_situations on_clash embeddings_create collection items
   = (collection, Raised))
  /\ (items = [] ->
      add_situations on_clash embeddings_create collection items
      = (collection, Returned)).
Proof.
  split.
  - intros Hfail. unfold add_situations.
    rewrite (prepare_entries_fails _ _ _ Hfail). reflexivity.
  - intros ->. reflexivity.
Qed.

Lemma add_situations_all_or_nothing_witness :
  add_situations (fun c _ => (c, Raised))
    (fun text => if String.eqb text "tech sells off" then None else Some [1%Q])
    []
    [("rates rise"%string, "shorten duration"%string);
     ("tech sells off"%string, "reduce growth"%string)]
  = ([], Raised).
Proof.
  apply (proj1 (add_situations_all_or_nothing _ _ _ _)).
  apply Exists_cons_tl, Exists_cons_hd. reflexivity.
Defined.

(** * Replaying the ledger *)

Lemma row_at_None (rows : list TradeRecord) (d : string) :
  row_at rows d = None <-> d ∉ (Date <$> rows).
Proof.
  unfold row_at. rewrite last_None.
  induction rows as [|r rows IH]; cbn [List.filter fmap list_fmap].
  - split; [intros _; apply not_elem_of_nil|reflexivity].
  - change (list_fmap _ _ Date rows) with (Date <$> rows).
    rewrite not_elem_of_cons.
    destruct (String.eqb_spec (Date r) d) as [E|E].
    + split; [discriminate|]. intros [Hne _]. congruence.
    + rewrite IH. split; [intros H; split; [congruence|exact H]|intros [_ H]; exact H].
Qed.

Lemma existsb_same_date (r : TradeRecord) (rows : list TradeRecord) :
  existsb (fun r' => String.eqb (Date r') (Date r)) rows = false
  <-> row_at rows (Date r) = None.
Proof.
  unfold row_at. rewrite last_None.
  induction rows as [|r' rows IH]; cbn [existsb List.filter]; [tauto|].
  destruct (String.eqb (Date r') (Date r)); cbn [orb].
  - split; discriminate.
  - exact IH.
Qed.

Lemma row_at_cons (r : TradeRecord) (rows : list TradeRecord) (d : string) :
  row_at (r :: rows) d
  = match row_at rows d with
    | Some row => Some row
    | None => if String.eqb (Date r) d then Some r else None
    end.
Proof.
  unfold row_at. cbn [List.filter].
  destruct (String.eqb (Date r) d); [|destruct (last _); reflexivity].
  destruct (List.filter (fun r0 => String.eqb (Date r0) d) rows) as [|x l];
    [reflexivity|].
  rewrite last_cons. destruct (last (x :: l)) eqn:E; [reflexivity|].
  apply last_None in E. discriminate.
Qed.

(** X25.  Deduplication keeps the last word on each date.  After
    [drop_duplicates(subset=['Date'], keep='last')] no date occurs
    twice, the rows kept are rows of the ledger in their order, and the
    row found for a date is the last row the ledger has for it, so that a
    day booked twice by a re-run is replayed once, as last booked. *)
Theorem init_keeps_last_row_per_date (rows : list TradeRecord) :
  NoDup (Date <$> ExcelSignalStrategy_init rows)
  /\ ExcelSignalStrategy_init rows `sublist_of` rows
  /\ forall d, row_at (ExcelSignalStrategy_init rows) d = row_at rows d.
Proof.
  unfold ExcelSignalStrategy_init.
  induction rows as [|r rows (IHnd & IHsub & IHrow)].
  - split; [constructor|]. split; [constructor|reflexivity].
  - cbn [drop_duplicates_keep_last].
    destruct (existsb (fun r' => String.eqb (Date r') (Date r)) rows) eqn:Hdup.
    + split; [exact IHnd|]. split; [apply sublist_cons; exact IHsub|].
      intros d. rewrite IHrow, row_at_cons.
      destruct (row_at rows d) as [row|] eqn:Hrow; [reflexivity|].
      destruct (String.eqb_spec (Date r) d) as [<-|_]; [|reflexivity].
      apply existsb_same_date in Hrow. congruence.
    + apply existsb_same_date in Hdup.
      split; [|split].
      * cbn [fmap list_fmap].
        change (list_fmap _ _ Date ?l) with (Date <$> l).
        constructor; [|exact IHnd].
        apply row_at_None. rewrite IHrow. exact Hdup.
      * apply sublist_skip. exact IHsub.
      * intros d. rewrite !row_at_cons, IHrow. reflexivity.
Qed.

(** The sign of the share delta of a record made by [execute_trade]. *)
Lemma traded_delta disk self fs date signal open_price record :
  records (execute_trade disk self fs date signal open_price).1.1
  = records self ++ [record] ->
  Date record = date
  /\ Shares record = shares self + Shares_Delta record
  /\ (Action record = "BUY" /\ 0 < Shares_Delta record
      \/ Action record = "SELL" /\ 0 < shares self
         /\ Shares_Delta record = - shares self
      \/ Action record = "HOLD" /\ Shares_Delta record = 0).
Proof.
  assert (Hnil : forall (l : list TradeRecord) r, l = l ++ [r] -> False).
  { intros l r E. apply (f_equal length) in E.
    rewrite length_app in E. simpl in E. lia. }
  rewrite execute_trade_cases.
  destruct (String.eqb signal "BUY" && Qlt_bool 0 (capital self)
            && Qeq_bool open_price 0).
  { cbn [fst]. intros E. destruct (Hnil _ _ E). }
  unfold settle.
  destruct (String.eqb signal "BUY" && Qlt_bool 0 (capital self)).
  - destruct (0 <? py_int (capital self * 1 / open_price)) eqn:Hpos;
      cbn [fst snd];
      destruct (Qeq_bool (initial_capital self) 0); cbn [fst];
      try (intros E; exfalso; exact (Hnil (records self) _ E));
      match goal with |- context [if disk ?p ?r then _ else _] =>
        destruct (disk p r) end; cbn [fst records set_records];
      intros E; apply app_inv_head in E; injection E as <-;
      unfold record_of;
      cbn [Date Shares Shares_Delta Action shares set_position];
      (split; [reflexivity|]); (split; [lia|]).
    1,2: left; apply Z.ltb_lt in Hpos; split; [reflexivity|exact Hpos].
    1,2: right; right; split; reflexivity.
  - destruct (String.eqb signal "SELL" && (0 <? shares self)) eqn:Hs;
      cbn [fst snd];
      destruct (Qeq_bool (initial_capital self) 0); cbn [fst];
      try (intros E; exfalso; exact (Hnil (records self) _ E));
      match goal with |- context [if disk ?p ?r then _ else _] =>
        destruct (disk p r) end; cbn [fst records set_records];
      intros E; apply app_inv_head in E; injection E as <-;
      unfold record_of;
      cbn [Date Shares Shares_Delta Action shares set_position];
      (split; [reflexivity|]); (split; [lia|]).
    1,2: right; left; apply andb_true_iff in Hs as [_ Hs];
      apply Z.ltb_lt in Hs; repeat split; [exact Hs].
    1,2: right; right; split; reflexivity.
Qed.

(** X26.  The replay issues the trades of the ledger.  When the row
    the table holds for a date is a record made by [execute_trade],
    [next] on that date orders a buy of exactly the shares bought when
    the action is BUY, a sell of exactly the shares that were held when
    the action is SELL, both of positive size, and nothing when the
    action is HOLD. *)
Theorem replay_issues_the_trade disk self fs date signal open_price record
    df_signals current_date :
  records (execute_trade disk self fs date signal open_price).1.1
  = records self ++ [record] ->
  row_at df_signals current_date = Some record ->
  (Action record = "BUY" /\ 0 < Shares_Delta record
   /\ ExcelSignalStrategy_next df_signals current_date
      = [BuyOrder (inject_Z (Shares_Delta record))])
  \/ (Action record = "SELL" /\ 0 < shares self
      /\ ExcelSignalStrategy_next df_signals current_date
         = [SellOrder (inject_Z (shares self))])
  \/ (Action record = "HOLD"
      /\ ExcelSignalStrategy_next df_signals current_date = []).
Proof.
  intros Hr Hrow.
  destruct (traded_delta disk self fs date signal open_price record Hr)
    as (_ & _ & Hcase).
  unfold ExcelSignalStrategy_next. rewrite Hrow. cbv zeta.
  destruct Hcase as [[Ha Hpos]|[(Ha & Hpos & Hd)|[Ha Hd]]]; rewrite Ha.
  - left. split; [reflexivity|]. split; [exact Hpos|reflexivity].
  - right. left. split; [reflexivity|]. split; [exact Hpos|].
    change (String.eqb "SELL" "BUY") with false.
    change (String.eqb "SELL" "SELL") with true. cbn beta iota.
    rewrite Hd. unfold Qabs, inject_Z.
    rewrite Z.abs_opp, Z.abs_eq by lia. reflexivity.
  - right. right. split; reflexivity.
Qed.

Lemma replay_issues_the_trade_witness :
  exists record,
    records (execute_trade (fun _ _ => true)
               (TradeManager_init ∅ "AMZN" 1000).1 ∅
               "2025-01-03" "BUY" 300).1.1
    = records (TradeManager_init ∅ "AMZN" 1000).1 ++ [record]
    /\ ExcelSignalStrategy_next [record] "2025-01-03" = [BuyOrder 3].
Proof.
  assert (H : exists record,
             records (execute_trade (fun _ _ => true)
                        (TradeManager_init ∅ "AMZN" 1000).1 ∅
                        "2025-01-03" "BUY" 300).1.1
             = records (TradeManager_init ∅ "AMZN" 1000).1 ++ [record]
             /\ row_at [record] "2025-01-03" = Some record
             /\ Action record = "BUY" /\ Shares_Delta record = 3)
    by (eexists; vm_compute; repeat split; reflexivity).
  destruct H as (record & Hr & Hrow & Ha & Hd).
  exists record. split; [exact Hr|].
  destruct (replay_issues_the_trade (fun _ _ => true)
              (TradeManager_init ∅ "AMZN" 1000).1 ∅
              "2025-01-03" "BUY" 300 record [record] "2025-01-03" Hr Hrow)
    as [(_ & _ & H)|[(Hs & _)|(Hh & _)]].
  - rewrite H, Hd. reflexivity.
  - rewrite Ha in Hs. discriminate.
  - rewrite Ha in Hh. discriminate.
Defined.

(** * The gate under back-to-back calls *)

(** X27.  Back-to-back calls are paced at exactly two seconds.  From a
    state in which a request has just finished, N calls that follow each
    other without idle time, with an exact sleep and a wrapped function
    that takes no time, start 2, 4, 6, ... seconds later and end
    [2 * N] seconds later. *)
Theorem back_to_back_calls_are_paced (n : nat) :
  forall st,
    (_last_request_time st == clock st)%Q ->
    let out := guarded_calls (replicate n (mkCall 0 0 0)) st in
    (clock out.1 == clock st + inject_Z (Z.of_nat n) * 2)%Q
    /\ forall i started,
         out.2 !! i = Some started ->
         (started == clock st + inject_Z (Z.of_nat (S i)) * 2)%Q.
Proof.
  induction n as [|n IH]; intros st Hlast.
  - cbn. split; [ring|]. intros i started H. discriminate.
  - cbn [replicate guarded_calls].
    assert (Hw : (clock (wrapper (mkCall 0 0 0) st).1 == clock st + 2)%Q
                 /\ _last_request_time (wrapper (mkCall 0 0 0) st).1
                    = clock (wrapper (mkCall 0 0 0) st).1
                 /\ ((wrapper (mkCall 0 0 0) st).2 == clock st + 2)%Q).
    { unfold wrapper. cbn [fst snd clock _last_request_time idle oversleep
                           duration].
      destruct (Qlt_bool 0 (2 - (clock st + 0 - _last_request_time st))) eqn:E.
      - repeat split; try reflexivity; ring_simplify; rewrite Hlast; ring.
      - apply Qlt_bool_false in E. exfalso. lra. }
    destruct (wrapper (mkCall 0 0 0) st) as [st1 started1].
    cbn [fst snd] in Hw. destruct Hw as (Hc1 & Hl1 & Hs1).
    assert (Hlast1 : (_last_request_time st1 == clock st1)%Q)
      by (rewrite Hl1; reflexivity).
    specialize (IH st1 Hlast1). cbv zeta in IH.
    destruct (guarded_calls (replicate n (mkCall 0 0 0)) st1) as [st2 starts].
    cbn [fst snd] in IH |- *. destruct IH as [IHc IHs].
    assert (Hsucc : forall k : nat,
               (inject_Z (Z.of_nat (S k)) == inject_Z (Z.of_nat k) + 1)%Q).
    { intros k. rewrite Nat2Z.inj_succ.
      replace (Z.succ (Z.of_nat k)) with (Z.of_nat k + 1) by lia.
      rewrite inject_Z_plus. reflexivity. }
    split.
    + rewrite IHc, Hc1, Hsucc. ring.
    + intros [|i] started H.
      * cbn in H. injection H as <-. rewrite Hs1.
        change (inject_Z (Z.of_nat 1)) with 1%Q. ring.
      * cbn in H. rewrite (IHs i started H), Hc1, (Hsucc (S i)). ring.
Qed.

Lemma back_to_back_calls_are_paced_witness :
  (100 == 100)%Q
  /\ (clock (guarded_calls (replicate 3 (mkCall 0 0 0))
               (mkThrottle 100 100)).1
      == 100 + inject_Z (Z.of_nat 3) * 2)%Q.
Proof.
  split; [reflexivity|].
  exact (proj1 (back_to_back_calls_are_paced 3 (mkThrottle 100 100)
                  (Qeq_refl 100))).
Defined.

Lemma wrapper_waits_only_when_needed_witness :
  (0 + 2 <= 100 + 0)%Q
  /\ (wrapper (mkCall 0 0 0) (mkThrottle 100 0)).2 = (100 + 0)%Q.
Proof.
  assert (H : (_last_request_time (mkThrottle 100 0) + 2
               <= clock (mkThrottle 100 0) + idle (mkCall 0 0 0))%Q)
    by discriminate.
  split; [discriminate|].
  exact (proj1 (wrapper_waits_only_when_needed (mkCall 0 0 0)
                  (mkThrottle 100 0)) H).
Defined.

